(** * InventoryOpt: the CSV streaming manager

    A shallow embedding of [CSVStreamingManager]
    (streaming_data_manager.py): the table snapshot it holds, the change
    summary it derives, the subscriber registry and the file-change
    pipeline, followed by the properties established about them.

    Conventions of the embedding.
    - A pandas DataFrame is a list of named, typed columns together with
      the length of its index.
    - A Python dict is an association list in insertion order.
    - Python exceptions of class [Exception] are values of [exn]; a
      computation that may raise returns a [result].
    - Methods that read or write [self] or have an effect (logging, calling
      a subscriber, sleeping, pushing to a sink) run in the monad [M], over a
      world made of the manager object and the trace of effects so far.
    - File contents, modification times and the clock are inputs of the
      operation that reads them. *)

From Stdlib Require Import ZArith QArith List String Bool Lia DecimalString.
Import ListNotations.
Open Scope string_scope.
Open Scope Z_scope.

Set Implicit Arguments.
Set Warnings "-register-all".

(** ** Python values and exceptions *)

Inductive exn : Type :=
| Exception (cls : string) (msg : string).

(** [str(e)] *)
Definition str_exn (e : exn) : string :=
  match e with Exception _ msg => msg end.

Inductive result (A : Type) : Type :=
| Ok (a : A)
| Raise (e : exn).
Arguments Ok {A} a.
Arguments Raise {A} e.

Inductive pyval : Type :=
| PyNone
| PyInt (z : Z)
| PyStr (s : string)
| PyList (l : list pyval)
| PyDict (d : list (string * pyval)).

(** [d.get(k)] on the items of a dict *)
Fixpoint assoc_get (k : string) (d : list (string * pyval)) : option pyval :=
  match d with
  | [] => None
  | (k', v) :: rest => if String.eqb k k' then Some v else assoc_get k rest
  end.

Definition dict_get (k : string) (v : pyval) : option pyval :=
  match v with
  | PyDict d => assoc_get k d
  | _ => None
  end.

(** [k in d] *)
Definition has_key (k : string) (v : pyval) : bool :=
  match dict_get k v with Some _ => true | None => false end.

(** [list(d.keys())] *)
Definition dict_keys (v : pyval) : list string :=
  match v with
  | PyDict d => map fst d
  | _ => []
  end.

(** [str(n)] for a length *)
Definition str_nat (n : nat) : string :=
  NilZero.string_of_uint (Nat.to_uint n).

(** ** Tables *)

(** A float64 cell: every finite double is a rational, and the two
    comparisons the manager performs ([< 10], [== 0]) are exact on it. *)
Inductive float64 : Type :=
| NaN
| PosInf
| NegInf
| Finite (q : Q).

(** A column as [pd.read_csv] types it: integers, floats (a missing cell is
    NaN), booleans, or [object] holding text with NaN for a missing cell. *)
Inductive Series : Type :=
| Int64 (xs : list Z)
| Float64 (xs : list float64)
| BoolCol (xs : list bool)
| Object (xs : list (option string)).

Record DataFrame : Type := mkDataFrame {
  index_len : nat;
  frame : list (string * Series)
}.

(** [df.columns] *)
Definition columns (df : DataFrame) : list string := map fst (frame df).

(** [len(df)] *)
Definition len (df : DataFrame) : nat := index_len df.

(** [c in df.columns] *)
Definition has_column (c : string) (df : DataFrame) : bool :=
  existsb (String.eqb c) (columns df).

Fixpoint lookup_column (c : string) (cols : list (string * Series)) : option Series :=
  match cols with
  | [] => None
  | (c', s) :: rest => if String.eqb c c' then Some s else lookup_column c rest
  end.

(** [df[c]]: raises KeyError when the column is absent *)
Definition getitem (df : DataFrame) (c : string) : result Series :=
  match lookup_column c (frame df) with
  | Some s => Ok s
  | None => Raise (Exception "KeyError" c)
  end.

Definition float_lt (x : float64) (k : Z) : bool :=
  match x with
  | NaN => false
  | PosInf => false
  | NegInf => true
  | Finite q => negb (Qle_bool (inject_Z k) q)
  end.

Definition float_eq (x : float64) (k : Z) : bool :=
  match x with
  | Finite q => Qeq_bool q (inject_Z k)
  | _ => false
  end.

Definition Z_of_bool (b : bool) : Z := if b then 1 else 0.

(** [series < k] for an integer literal [k]: elementwise on numeric and
    boolean columns; on an object column comparing text with an integer
    raises TypeError, and a missing cell compares false. *)
Definition series_lt (s : Series) (k : Z) : result (list bool) :=
  match s with
  | Int64 xs => Ok (map (fun x => x <? k) xs)
  | Float64 xs => Ok (map (fun x => float_lt x k) xs)
  | BoolCol xs => Ok (map (fun b => Z_of_bool b <? k) xs)
  | Object xs =>
      if existsb (fun x => match x with Some _ => true | None => false end) xs
      then Raise (Exception "TypeError"
                    "'<' not supported between instances of 'str' and 'int'")
      else Ok (map (fun _ => false) xs)
  end.

(** [series == k]: never raises; text and missing cells are unequal to [k]. *)
Definition series_eq (s : Series) (k : Z) : list bool :=
  match s with
  | Int64 xs => map (fun x => x =? k) xs
  | Float64 xs => map (fun x => float_eq x k) xs
  | BoolCol xs => map (fun b => Z_of_bool b =? k) xs
  | Object xs => map (fun _ => false) xs
  end.

(** [len(df[mask])]: the number of rows the boolean mask selects *)
Definition len_masked (mask : list bool) : nat :=
  List.length (filter (fun b => b) mask).

(** [df.select_dtypes(include=[np.number]).columns] *)
Definition is_number (s : Series) : bool :=
  match s with
  | Int64 _ | Float64 _ => true
  | BoolCol _ | Object _ => false
  end.

Definition numeric_frame (df : DataFrame) : list (string * Series) :=
  filter (fun cs => is_number (snd cs)) (frame df).

(** ** The manager object *)

(** [self.expected_columns], assigned once in [__init__] *)
Definition expected_columns : list string :=
  [ "Date"; "Store ID"; "Product ID"; "Category"; "Region";
    "Inventory Level"; "Units Sold"; "Units Ordered"; "Demand Forecast";
    "Price"; "Discount"; "Weather Condition"; "Holiday/Promotion";
    "Competitor Pricing"; "Seasonality" ].

(** The effects of the methods, in the order they happen. [Stored] is the
    assignment [self.last_data = data]: it is recorded so that every value
    the attribute has held, which is what a reader running beside the
    manager can have seen, is visible in the trace. *)
Inductive Event : Type :=
| Logged (level : string) (msg : string)
| Called (cb : nat) (data : DataFrame) (changes : pyval) (outcome : result unit)
| RedisSetex (key : string) (ttl : Z) (payload : string)
| KafkaSend (topic : string) (payload : string)
| Slept (seconds : Z)
| Stored (data : DataFrame).

(** A subscriber: a callable, identified by the identity of the object.
    Its body sees the effects that happened before the call, so that it may
    behave differently from one call to the next; it returns normally or
    raises. Subscribers receive the snapshot and the change summary only:
    they neither re-enter the manager nor mutate their arguments. *)
Record Callback : Type := mkCallback {
  cb_id : nat;
  cb_body : list Event -> DataFrame -> pyval -> result unit
}.

(** [cb1 == cb2], which for functions is [cb1 is cb2]: [cb_id] names the
    class of callables equal to one another. *)
Definition same_callback (c1 c2 : Callback) : bool :=
  Nat.eqb (cb_id c1) (cb_id c2).

(** The optional sinks; a send may fail. *)
Record RedisClient : Type := mkRedis {
  setex : string -> Z -> string -> result unit
}.

Record KafkaProducer : Type := mkKafka {
  send : string -> string -> result unit
}.

Record CSVStreamingManager : Type := mkManager {
  csv_path : string;
  update_interval : Z;
  last_modified : option Z;
  last_data : option DataFrame;
  subscribers : list Callback;
  is_running : bool;
  socketio_server : bool;
  redis_client : option RedisClient;
  kafka_producer : option KafkaProducer
}.

(** [CSVStreamingManager.__init__] *)
Definition init (path : string) (interval : Z) : CSVStreamingManager :=
  {| csv_path := path;
     update_interval := interval;
     last_modified := None;
     last_data := None;
     subscribers := [];
     is_running := false;
     socketio_server := false;
     redis_client := None;
     kafka_producer := None |}.

Definition set_last_modified (m : Z) (self : CSVStreamingManager) :=
  {| csv_path := csv_path self;
     update_interval := update_interval self;
     last_modified := Some m;
     last_data := last_data self;
     subscribers := subscribers self;
     is_running := is_running self;
     socketio_server := socketio_server self;
     redis_client := redis_client self;
     kafka_producer := kafka_producer self |}.

Definition set_last_data (df : DataFrame) (self : CSVStreamingManager) :=
  {| csv_path := csv_path self;
     update_interval := update_interval self;
     last_modified := last_modified self;
     last_data := Some df;
     subscribers := subscribers self;
     is_running := is_running self;
     socketio_server := socketio_server self;
     redis_client := redis_client self;
     kafka_producer := kafka_producer self |}.

Definition set_subscribers (l : list Callback) (self : CSVStreamingManager) :=
  {| csv_path := csv_path self;
     update_interval := update_interval self;
     last_modified := last_modified self;
     last_data := last_data self;
     subscribers := l;
     is_running := is_running self;
     socketio_server := socketio_server self;
     redis_client := redis_client self;
     kafka_producer := kafka_producer self |}.

Definition set_is_running (b : bool) (self : CSVStreamingManager) :=
  {| csv_path := csv_path self;
     update_interval := update_interval self;
     last_modified := last_modified self;
     last_data := last_data self;
     subscribers := subscribers self;
     is_running := b;
     socketio_server := socketio_server self;
     redis_client := redis_client self;
     kafka_producer := kafka_producer self |}.

Definition set_socketio_server (b : bool) (self : CSVStreamingManager) :=
  {| csv_path := csv_path self;
     update_interval := update_interval self;
     last_modified := last_modified self;
     last_data := last_data self;
     subscribers := subscribers self;
     is_running := is_running self;
     socketio_server := b;
     redis_client := redis_client self;
     kafka_producer := kafka_producer self |}.

(** ** The monad of methods *)

Record World : Type := mkWorld {
  self_ : CSVStreamingManager;
  trace : list Event
}.

Definition M (A : Type) : Type := World -> result A * World.

Definition ret {A} (a : A) : M A := fun w => (Ok a, w).

Definition bind {A B} (m : M A) (k : A -> M B) : M B :=
  fun w => match m w with
           | (Ok a, w') => k a w'
           | (Raise e, w') => (Raise e, w')
           end.

Notation "x <- m ;; k" := (bind m (fun x => k))
  (at level 61, m at next level, right associativity).
Notation "m ;; k" := (bind m (fun _ => k))
  (at level 61, right associativity).

(** [raise e], and the lifting of a value that was computed or failed *)
Definition lift {A} (r : result A) : M A := fun w => (r, w).

(** [try: m except Exception as e: h(e)], where what [m] raises is an
    instance of class Exception; the clause for a raise of any class is
    [Exits.try_except] below. *)
Definition try_except {A} (m : M A) (h : exn -> M A) : M A :=
  fun w => match m w with
           | (Ok a, w') => (Ok a, w')
           | (Raise e, w') => h e w'
           end.

Definition get_self : M CSVStreamingManager := fun w => (Ok (self_ w), w).

Definition modify_self (f : CSVStreamingManager -> CSVStreamingManager) : M unit :=
  fun w => (Ok tt, {| self_ := f (self_ w); trace := trace w |}).

Definition emit (ev : Event) : M unit :=
  fun w => (Ok tt, {| self_ := self_ w; trace := trace w ++ [ev] |}).

Definition logger_info (msg : string) : M unit := emit (Logged "INFO" msg).
Definition logger_warning (msg : string) : M unit := emit (Logged "WARNING" msg).
Definition logger_error (msg : string) : M unit := emit (Logged "ERROR" msg).

(** [time.sleep(n)] *)
Definition sleep (n : Z) : M unit := emit (Slept n).

(** Final manager and trace of a run *)
Definition run {A} (m : M A) (w : World) : result A * World := m w.

(** ** Library calls left abstract

    Serialisation of a table and the descriptive statistics of pandas are
    not part of the manager; the methods below are stated over any
    implementation of them. Each may raise, except [describe], which the
    manager applies to numeric columns only. *)
Class Pandas : Type := {
  to_json : DataFrame -> result string;
  to_dict : DataFrame -> result pyval;
  json_dumps : pyval -> result string;
  series_min : Series -> result pyval;
  series_max : Series -> result pyval;
  describe : list (string * Series) -> pyval
}.

(** What the file system and the clock answer during one run of
    [_handle_file_change]: the outcome of [pd.read_csv(self.csv_path)], of
    [self.csv_path.stat().st_mtime] (a number compared with [>] only), and
    the two readings of [datetime.now().isoformat()]. *)
Record Env : Type := mkEnv {
  read_csv : result DataFrame;
  stat_mtime : result Z;
  now_changes : string;
  now_broadcast : string
}.

(** ** Methods *)

Section Methods.
Context {pandas : Pandas}.

(** [subscribe] *)
Definition subscribe (callback : Callback) : M unit :=
  self <- get_self ;;
  modify_self (set_subscribers (subscribers self ++ [callback])) ;;
  self <- get_self ;;
  logger_info ("Added subscriber. Total subscribers: "
               ++ str_nat (List.length (subscribers self))).

(** [callback in self.subscribers] *)
Definition registered (callback : Callback) (l : list Callback) : bool :=
  existsb (same_callback callback) l.

(** [list.remove]: deletes the first occurrence *)
Fixpoint remove_first (callback : Callback) (l : list Callback) : list Callback :=
  match l with
  | [] => []
  | c :: rest =>
      if same_callback callback c then rest else c :: remove_first callback rest
  end.

(** [unsubscribe] *)
Definition unsubscribe (callback : Callback) : M unit :=
  self <- get_self ;;
  if registered callback (subscribers self) then
    modify_self (set_subscribers (remove_first callback (subscribers self))) ;;
    self <- get_self ;;
    logger_info ("Removed subscriber. Total subscribers: "
                 ++ str_nat (List.length (subscribers self)))
  else ret tt.

(** [_validate_columns] *)
Definition _validate_columns (df : DataFrame) : bool :=
  forallb (fun col => has_column col df) expected_columns.

(** The body of the [if] of [_calculate_changes] that fills
    [changes["changes"]["inventory_changes"]]. *)
Definition inventory_changes (new_data : DataFrame) : result pyval :=
  match getitem new_data "Inventory Level" with
  | Raise e => Raise e
  | Ok s =>
      match series_lt s 10 with
      | Raise e => Raise e
      | Ok low =>
          Ok (PyDict [ ("low_stock", PyInt (Z.of_nat (len_masked low)));
                       ("out_of_stock",
                        PyInt (Z.of_nat (len_masked (series_eq s 0)))) ])
      end
  end.

(** [_calculate_changes]; [now] is [datetime.now().isoformat()]. *)
Definition _calculate_changes (self : CSVStreamingManager) (now : string)
    (new_data : DataFrame) : result pyval :=
  match last_data self with
  | None =>
      Ok (PyDict [ ("type", PyStr "initial_load");
                   ("rows", PyInt (Z.of_nat (len new_data))) ])
  | Some old =>
      let changes (inner : list (string * pyval)) :=
        PyDict [ ("type", PyStr "update");
                 ("timestamp", PyStr now);
                 ("total_rows", PyInt (Z.of_nat (len new_data)));
                 ("changes", PyDict inner) ] in
      if has_column "Inventory Level" new_data
         && has_column "Inventory Level" old
      then
        match inventory_changes new_data with
        | Raise e => Raise e
        | Ok ic => Ok (changes [ ("inventory_changes", ic) ])
        end
      else Ok (changes [])
  end.

(** One turn of the loop of [_notify_subscribers]. *)
Definition call_subscriber (subscriber : Callback) (data : DataFrame)
    (changes : pyval) : M unit :=
  fun w =>
    let outcome := cb_body subscriber (trace w) data changes in
    (outcome,
     {| self_ := self_ w;
        trace := trace w ++ [Called (cb_id subscriber) data changes outcome] |}).

Fixpoint notify_each (subs : list Callback) (data : DataFrame)
    (changes : pyval) : M unit :=
  match subs with
  | [] => ret tt
  | subscriber :: rest =>
      try_except (call_subscriber subscriber data changes)
        (fun e => logger_error ("Error in subscriber callback: " ++ str_exn e)) ;;
      notify_each rest data changes
  end.

(** [_notify_subscribers] *)
Definition _notify_subscribers (data : DataFrame) (changes : pyval) : M unit :=
  self <- get_self ;;
  notify_each (subscribers self) data changes.

(** [_broadcast_data] *)
Definition _broadcast_data (now : string) (data : DataFrame)
    (changes : pyval) : M unit :=
  try_except
    (self <- get_self ;;
     (if socketio_server self
      then _ <- lift (to_json data) ;; ret tt
      else ret tt) ;;
     (match redis_client self with
      | Some client =>
          payload <- lift (to_json data) ;;
          emit (RedisSetex "latest_inventory_data" 3600 payload) ;;
          lift (setex client "latest_inventory_data" 3600 payload)
      | None => ret tt
      end) ;;
     (match kafka_producer self with
      | Some producer =>
          records <- lift (to_dict data) ;;
          payload <- lift (json_dumps (PyDict [ ("timestamp", PyStr now);
                                                ("data", records);
                                                ("changes", changes) ])) ;;
          emit (KafkaSend "inventory_updates" payload) ;;
          lift (send producer "inventory_updates" payload)
      | None => ret tt
      end))
    (fun e => logger_error ("Error broadcasting data: " ++ str_exn e)).

(** [_handle_file_change]. The early [return] of the source is the first
    branch of the test; [emit (Stored new_data)] records the assignment made
    on the line before it and is not a statement of the source. *)
Definition _handle_file_change (env : Env) : M unit :=
  try_except
    (new_data <- lift (read_csv env) ;;
     if negb (_validate_columns new_data) then
       logger_warning "CSV columns don't match expected schema"
     else
       m <- lift (stat_mtime env) ;;
       modify_self (set_last_modified m) ;;
       self <- get_self ;;
       changes <- lift (_calculate_changes self (now_changes env) new_data) ;;
       modify_self (set_last_data new_data) ;;
       emit (Stored new_data) ;;
       _notify_subscribers new_data changes ;;
       _broadcast_data (now_broadcast env) new_data changes ;;
       logger_info ("Processed CSV update with "
                    ++ str_nat (len new_data) ++ " rows"))
    (fun e => logger_error ("Error processing CSV update: " ++ str_exn e)).

(** The test of [streaming_loop]:
    [self.last_modified is None or current_modified > self.last_modified] *)
Definition file_modified (self : CSVStreamingManager) (current_modified : Z) : bool :=
  match last_modified self with
  | None => true
  | Some lm => lm <? current_modified
  end.

(** One iteration of the body of [streaming_loop]. [poll_mtime] is what
    [self.csv_path.stat().st_mtime] answers at the top of the iteration.
    The returned boolean is not in the source: it records whether the
    iteration signalled a change, that is, called [_handle_file_change]. *)
Definition streaming_loop_body (poll_mtime : result Z) (env : Env) : M bool :=
  try_except
    (current_modified <- lift poll_mtime ;;
     self <- get_self ;;
     signalled <-
       (if file_modified self current_modified
        then _handle_file_change env ;; ret true
        else ret false) ;;
     sleep 1 ;;
     ret signalled)
    (fun e =>
       logger_error ("Error in streaming loop: " ++ str_exn e) ;;
       sleep 5 ;;
       ret false).

(** [streaming_loop]: the iterations made while [self.is_running] holds,
    one per pair of answers of the environment. It returns which iterations
    signalled a change. *)
Fixpoint streaming_loop (answers : list (result Z * Env)) : M (list bool) :=
  match answers with
  | [] => ret []
  | (poll_mtime, env) :: rest =>
      self <- get_self ;;
      if is_running self then
        b <- streaming_loop_body poll_mtime env ;;
        bs <- streaming_loop rest ;;
        ret (b :: bs)
      else ret []
  end.

(** [get_latest_data] *)
Definition get_latest_data (self : CSVStreamingManager) : option DataFrame :=
  last_data self.

(** [self.last_data['Date'].min() if 'Date' in self.last_data.columns else None] *)
Definition date_bound (bound : Series -> result pyval) (df : DataFrame) : result pyval :=
  if has_column "Date" df then
    match getitem df "Date" with
    | Raise e => Raise e
    | Ok s => bound s
    end
  else Ok PyNone.

(** [get_data_summary]; [now] is [datetime.now().isoformat()]. *)
Definition get_data_summary (self : CSVStreamingManager) (now : string) : result pyval :=
  match last_data self with
  | None => Ok (PyDict [ ("error", PyStr "No data available") ])
  | Some df =>
      match date_bound series_min df with
      | Raise e => Raise e
      | Ok start =>
          match date_bound series_max df with
          | Raise e => Raise e
          | Ok end_ =>
              let summary :=
                [ ("timestamp", PyStr now);
                  ("total_rows", PyInt (Z.of_nat (len df)));
                  ("columns", PyList (map PyStr (columns df)));
                  ("date_range", PyDict [ ("start", start); ("end", end_) ]) ] in
              if (0 <? List.length (numeric_frame df))%nat
              then Ok (PyDict (summary
                               ++ [ ("numerical_summary", describe (numeric_frame df)) ]))
              else Ok (PyDict summary)
          end
      end
  end.

(** [start_monitoring], as far as the manager object is concerned:
    [exists_] is [self.csv_path.exists()] and [socketio_ok] whether the
    Socket.IO server object could be created. The value returned is the
    method's own. The threads it starts run [streaming_loop] and the
    file observer, which calls [_handle_file_change]. *)
Definition start_monitoring (exists_ : bool) (socketio_ok : bool) : M bool :=
  if negb exists_ then
    self <- get_self ;;
    logger_error ("CSV file not found: " ++ csv_path self) ;; ret false
  else
    modify_self (set_is_running true) ;;
    modify_self (set_socketio_server socketio_ok) ;;
    self <- get_self ;;
    logger_info ("Started monitoring CSV file: " ++ csv_path self) ;;
    ret true.

(** [stop_monitoring]. [observer] is [None] when the manager has no
    attribute [observer] (the file monitor was never started), and otherwise
    what [self.observer.stop(); self.observer.join()] does: return, or raise.
    The tests on the server handles that follow do nothing ([pass]). *)
Definition stop_monitoring (observer : option (result unit)) : M unit :=
  modify_self (set_is_running false) ;;
  (match observer with
   | Some stopped => lift stopped
   | None => ret tt
   end) ;;
  logger_info "Stopped CSV monitoring and streaming".

End Methods.

(** ** Runs of the manager and what a trace shows *)

Section Runs.
Context {pandas : Pandas}.

(** What can happen to a manager once built: a client subscribes or
    unsubscribes, the file observer reports a modification, the streaming
    loop makes an iteration, monitoring is started or stopped. *)
Inductive step : World -> World -> Prop :=
| step_subscribe (cb : Callback) (w : World) :
    step w (snd (run (subscribe cb) w))
| step_unsubscribe (cb : Callback) (w : World) :
    step w (snd (run (unsubscribe cb) w))
| step_on_modified (env : Env) (w : World) :
    step w (snd (run (_handle_file_change env) w))
| step_loop (poll_mtime : result Z) (env : Env) (w : World) :
    step w (snd (run (streaming_loop_body poll_mtime env) w))
| step_start (exists_ socketio_ok : bool) (w : World) :
    step w (snd (run (start_monitoring exists_ socketio_ok) w))
| step_stop (observer : option (result unit)) (w : World) :
    step w (snd (run (stop_monitoring observer) w)).

Inductive reachable : World -> Prop :=
| reach_init (path : string) (interval : Z) :
    reachable {| self_ := init path interval; trace := [] |}
| reach_step (w w' : World) :
    reachable w -> step w w' -> reachable w'.

End Runs.

(** The subscriber calls recorded in a stretch of trace, in order. *)
Fixpoint calls_of (evs : list Event) : list (nat * DataFrame * pyval) :=
  match evs with
  | [] => []
  | Called i data changes _ :: rest => (i, data, changes) :: calls_of rest
  | _ :: rest => calls_of rest
  end.

(** How many times the subscriber of identity [i] was called. *)
Definition calls_to (i : nat) (evs : list Event) : nat :=
  List.length (filter (fun c => Nat.eqb i (fst (fst c))) (calls_of evs)).

(** How many entries of the registry hold the subscriber of identity [i]. *)
Definition registrations (i : nat) (l : list Callback) : nat :=
  List.length (filter (fun c => Nat.eqb i (cb_id c)) l).

(** The events a run appended to the trace. *)
Definition new_events (before after : World) : list Event :=
  skipn (List.length (trace before)) (trace after).

(** The events of one dispatch over the registry [subs], given the trace
    [before] it. *)
Fixpoint dispatch_events (subs : list Callback) (data : DataFrame)
    (changes : pyval) (before : list Event) : list Event :=
  match subs with
  | [] => []
  | subscriber :: rest =>
      let outcome := cb_body subscriber before data changes in
      let evs :=
        Called (cb_id subscriber) data changes outcome ::
        match outcome with
        | Ok _ => []
        | Raise e => [Logged "ERROR" ("Error in subscriber callback: " ++ str_exn e)]
        end in
      evs ++ dispatch_events rest data changes (before ++ evs)
  end.

(** The low-stock and out-of-stock counts of a table, as
    [_calculate_changes] counts them. *)
Definition low_stock_of (df : DataFrame) : option Z :=
  match inventory_changes df with
  | Ok ic => match dict_get "low_stock" ic with
             | Some (PyInt n) => Some n
             | _ => None
             end
  | Raise _ => None
  end.

Definition out_of_stock_of (df : DataFrame) : option Z :=
  match inventory_changes df with
  | Ok ic => match dict_get "out_of_stock" ic with
             | Some (PyInt n) => Some n
             | _ => None
             end
  | Raise _ => None
  end.

(** The two indicators carried by a change summary, if it carries them. *)
Definition indicator (name : string) (changes : pyval) : option Z :=
  match dict_get "changes" changes with
  | Some inner =>
      match dict_get "inventory_changes" inner with
      | Some ic => match dict_get name ic with
                   | Some (PyInt n) => Some n
                   | _ => None
                   end
      | None => None
      end
  | None => None
  end.

(** The exceptions subscribers raised, and the messages logged at a level,
    in a stretch of trace. *)
Fixpoint raised_in (evs : list Event) : list exn :=
  match evs with
  | [] => []
  | Called _ _ _ (Raise e) :: rest => e :: raised_in rest
  | _ :: rest => raised_in rest
  end.

Fixpoint logged_in (level : string) (evs : list Event) : list string :=
  match evs with
  | [] => []
  | Logged l msg :: rest =>
      if String.eqb l level then msg :: logged_in level rest
      else logged_in level rest
  | _ :: rest => logged_in level rest
  end.

(** The tables assigned to [self.last_data] in a stretch of trace. *)
Fixpoint stored_in (evs : list Event) : list DataFrame :=
  match evs with
  | [] => []
  | Stored data :: rest => data :: stored_in rest
  | _ :: rest => stored_in rest
  end.

(** Several steps in a row. *)
Inductive steps {pandas : Pandas} : World -> World -> Prop :=
| steps_refl (w : World) : steps w w
| steps_more (w w1 w2 : World) : steps w w1 -> step w1 w2 -> steps w w2.

(** ** Sample data *)

(** A stand-in for the library calls, used where a concrete run is
    evaluated. *)
Definition stub_pandas : Pandas :=
  {| to_json := fun _ => Ok "[]";
     to_dict := fun _ => Ok (PyList []);
     json_dumps := fun _ => Ok "{}";
     series_min := fun _ => Ok (PyStr "2022-01-01");
     series_max := fun _ => Ok (PyStr "2022-01-31");
     describe := fun cols => PyDict (map (fun cs => (fst cs, PyDict [])) cols) |}.

(** A table with every expected column and one row per inventory level:
    the inventory column is numeric, the others hold text. *)
Definition inventory_table (levels : list Z) : DataFrame :=
  {| index_len := List.length levels;
     frame :=
       map (fun c => (c, if String.eqb c "Inventory Level"
                         then Int64 levels
                         else Object (map (fun _ => Some "x") levels)))
           expected_columns |}.

(** What [pd.read_csv] makes of a file that holds the header line only. *)
Definition header_only : DataFrame := 
  {| index_len := 0;
     frame := map (fun c => (c, Object [])) expected_columns |}.

(** [df.drop(columns=[c])] *)
Definition drop_column (c : string) (df : DataFrame) : DataFrame :=
  {| index_len := index_len df;
     frame := filter (fun cs => negb (String.eqb c (fst cs))) (frame df) |}.

Definition file_with (df : DataFrame) (mtime : Z) : Env :=
  {| read_csv := Ok df;
     stat_mtime := Ok mtime;
     now_changes := "2024-05-01T10:00:00";
     now_broadcast := "2024-05-01T10:00:01" |}.

(** A subscriber that returns, and one that raises on every call. *)
Definition probe : Callback :=
  {| cb_id := 7; cb_body := fun _ _ _ => Ok tt |}.

Definition failing : Callback :=
  {| cb_id := 1;
     cb_body := fun _ _ _ => Raise (Exception "RuntimeError" "boom") |}.

Definition fresh : World :=
  {| self_ := init "retail_store_inventory.csv" 300; trace := [] |}.

(** The world a method leaves. *)
Definition after {A} (m : M A) (w : World) : World := snd (run m w).

(** ** Further entry points of the manager *)



(** The pushes to Redis and Kafka in a stretch of trace. *)
Fixpoint pushes_in (evs : list Event) : list Event :=
  match evs with
  | [] => []
  | RedisSetex key ttl payload :: rest => RedisSetex key ttl payload :: pushes_in rest
  | KafkaSend topic payload :: rest => KafkaSend topic payload :: pushes_in rest
  | _ :: rest => pushes_in rest
  end.

(** [len(series)] *)
Definition series_len (s : Series) : nat :=
  match s with
  | Int64 xs => List.length xs
  | Float64 xs => List.length xs
  | BoolCol xs => List.length xs
  | Object xs => List.length xs
  end.

(** A cell of an object column that holds text. *)
Definition is_text (cell : option string) : bool :=
  match cell with Some _ => true | None => false end.

(** ** The inventory loop of the data simulator

    [simulate_data_changes] (generate_sample_data.py) rewrites the table the
    manager watches. Its first loop is the only one that assigns the
    Inventory Level column; it is embedded here for an integer column. The
    random numbers are inputs: for each row, whether
    [np.random.random() < 0.4] held, and the number [np.random.randint]
    returned if it was called. *)
Record InventoryDraw : Type := mkDraw {
  selected : bool;
  amount : Z
}.

(** [np.random.randint(low, high)], returning [draw]: it raises ValueError
    when the range is empty. *)
Definition randint (low high draw : Z) : result Z :=
  if high <=? low then Raise (Exception "ValueError" "low >= high")
  else Ok draw.

(** What the draw of [randint low high] can be. *)
Definition in_range (low high draw : Z) : Prop := low <= draw < high.

(** The body of the first loop for the row whose level is
    [current_inventory]; the result is the level the row has after it. *)
Definition update_inventory_level (current_inventory : Z) (d : InventoryDraw) : result Z :=
  if selected d then
    if current_inventory <? 15 then
      match randint 20 100 (amount d) with
      | Raise e => Raise e
      | Ok restock_amount => Ok (Z.min 200 (current_inventory + restock_amount))
      end
    else if 0 <? current_inventory then
      match randint 1 (Z.min 10 current_inventory) (amount d) with
      | Raise e => Raise e
      | Ok sales_amount => Ok (Z.max 0 (current_inventory - sales_amount))
      end
    else Ok current_inventory
  else Ok current_inventory.

(** The draws the loop body makes for a row are within the ranges it asks
    for. *)
Definition draw_in_range (current_inventory : Z) (d : InventoryDraw) : Prop :=
  if current_inventory <? 15 then in_range 20 100 (amount d)
  else in_range 1 (Z.min 10 current_inventory) (amount d).

(** The first loop, [for i in range(len(updated_df))], over the rows of the
    column from row [i] on; [draws i] is the draw made for row [i]. *)
Fixpoint update_inventory_levels (levels : list Z) (draws : nat -> InventoryDraw)
    (i : nat) : result (list Z) :=
  match levels with
  | [] => Ok []
  | current_inventory :: rest =>
      match update_inventory_level current_inventory (draws i) with
      | Raise e => Raise e
      | Ok level =>
          match update_inventory_levels rest draws (S i) with
          | Raise e => Raise e
          | Ok levels' => Ok (level :: levels')
          end
      end
  end.

(** A table whose inventory column holds text in every row. *)
Definition text_inventory_table (cells : list string) : DataFrame :=
  {| index_len := List.length cells;
     frame := map (fun c => (c, Object (map Some cells))) expected_columns |}.

(** ** The class of what is raised

    [except Exception] catches the instances of class Exception. An
    instance of a class outside it ([SystemExit], which [sys.exit] raises,
    [KeyboardInterrupt], [GeneratorExit]) passes through the clause. The
    methods embedded so far are those of the manager where everything
    raised is of class Exception, as is what the parser, the file system,
    the comparisons of pandas and the sinks raise. The code of a subscriber
    can raise anything: module [Exits] embeds again every method that has an
    [except Exception] clause, with the class of what is raised taken into
    account. *)

(** The built-in classes derived from BaseException and not from
    Exception. *)
Definition outside_Exception : list string :=
  [ "BaseException"; "SystemExit"; "KeyboardInterrupt"; "GeneratorExit" ].

(** [isinstance(e, Exception)] *)
Definition isinstance_Exception (e : exn) : bool :=
  match e with
  | Exception cls _ => negb (existsb (String.eqb cls) outside_Exception)
  end.

(** A computation that returns or raises within class Exception. *)
Definition within_Exception {A : Type} (r : result A) : Prop :=
  match r with
  | Ok _ => True
  | Raise e => isinstance_Exception e = true
  end.

Module Exits.

(** [try: m except Exception as e: h(e)] *)
Definition try_except {A} (m : M A) (h : exn -> M A) : M A :=
  fun w => match m w with
           | (Ok a, w') => (Ok a, w')
           | (Raise e, w') =>
               if isinstance_Exception e then h e w' else (Raise e, w')
           end.

Section Methods.
Context {pandas : Pandas}.

Fixpoint notify_each (subs : list Callback) (data : DataFrame)
    (changes : pyval) : M unit :=
  match subs with
  | [] => ret tt
  | subscriber :: rest =>
      try_except (call_subscriber subscriber data changes)
        (fun e => logger_error ("Error in subscriber callback: " ++ str_exn e)) ;;
      notify_each rest data changes
  end.

(** [_notify_subscribers] *)
Definition _notify_subscribers (data : DataFrame) (changes : pyval) : M unit :=
  self <- get_self ;;
  notify_each (subscribers self) data changes.

(** [_broadcast_data] *)
Definition _broadcast_data (now : string) (data : DataFrame)
    (changes : pyval) : M unit :=
  try_except
    (self <- get_self ;;
     (if socketio_server self
      then _ <- lift (to_json data) ;; ret tt
      else ret tt) ;;
     (match redis_client self with
      | Some client =>
          payload <- lift (to_json data) ;;
          emit (RedisSetex "latest_inventory_data" 3600 payload) ;;
          lift (setex client "latest_inventory_data" 3600 payload)
      | None => ret tt
      end) ;;
     (match kafka_producer self with
      | Some producer =>
          records <- lift (to_dict data) ;;
          payload <- lift (json_dumps (PyDict [ ("timestamp", PyStr now);
                                                ("data", records);
                                                ("changes", changes) ])) ;;
          emit (KafkaSend "inventory_updates" payload) ;;
          lift (send producer "inventory_updates" payload)
      | None => ret tt
      end))
    (fun e => logger_error ("Error broadcasting data: " ++ str_exn e)).

(** [_handle_file_change]; [emit (Stored new_data)] records the assignment
    made on the line before it. *)
Definition _handle_file_change (env : Env) : M unit :=
  try_except
    (new_data <- lift (read_csv env) ;;
     if negb (_validate_columns new_data) then
       logger_warning "CSV columns don't match expected schema"
     else
       m <- lift (stat_mtime env) ;;
       modify_self (set_last_modified m) ;;
       self <- get_self ;;
       changes <- lift (_calculate_changes self (now_changes env) new_data) ;;
       modify_self (set_last_data new_data) ;;
       emit (Stored new_data) ;;
       _notify_subscribers new_data changes ;;
       _broadcast_data (now_broadcast env) new_data changes ;;
       logger_info ("Processed CSV update with "
                    ++ str_nat (len new_data) ++ " rows"))
    (fun e => logger_error ("Error processing CSV update: " ++ str_exn e)).

(** One iteration of the body of [streaming_loop]; the boolean records
    whether the iteration called [_handle_file_change]. *)
Definition streaming_loop_body (poll_mtime : result Z) (env : Env) : M bool :=
  try_except
    (current_modified <- lift poll_mtime ;;
     self <- get_self ;;
     signalled <-
       (if file_modified self current_modified
        then _handle_file_change env ;; ret true
        else ret false) ;;
     sleep 1 ;;
     ret signalled)
    (fun e =>
       logger_error ("Error in streaming loop: " ++ str_exn e) ;;
       sleep 5 ;;
       ret false).

(** [streaming_loop]: what is raised in an iteration and not caught there
    ends the loop. *)
Fixpoint streaming_loop (answers : list (result Z * Env)) : M (list bool) :=
  match answers with
  | [] => ret []
  | (poll_mtime, env) :: rest =>
      self <- get_self ;;
      if is_running self then
        b <- streaming_loop_body poll_mtime env ;;
        bs <- streaming_loop rest ;;
        ret (b :: bs)
      else ret []
  end.

End Methods.

End Exits.

(** The subscribers of a world raise within class Exception, whatever they
    are called with. *)
Definition subscribers_within_Exception (l : list Callback) : Prop :=
  forall c tr data changes,
    In c l -> within_Exception (cb_body c tr data changes).

(** The library calls raise within class Exception. *)
Definition pandas_within_Exception {pandas : Pandas} : Prop :=
  (forall df, within_Exception (to_json df))
  /\ (forall df, within_Exception (to_dict df))
  /\ (forall v, within_Exception (json_dumps v)).

(** What the file system answers is a value or a raise within class
    Exception. *)
Definition env_within_Exception (env : Env) : Prop :=
  within_Exception (read_csv env) /\ within_Exception (stat_mtime env).

(** The sinks raise within class Exception. *)
Definition sinks_within_Exception (self : CSVStreamingManager) : Prop :=
  (forall client key ttl payload,
     redis_client self = Some client ->
     within_Exception (setex client key ttl payload))
  /\ (forall producer topic payload,
        kafka_producer self = Some producer ->
        within_Exception (send producer topic payload)).

(** Nothing the manager calls while it processes a file raises outside
    class Exception: the subscribers, the sinks and the library. *)
Definition calls_within_Exception {pandas : Pandas}
    (self : CSVStreamingManager) : Prop :=
  subscribers_within_Exception (subscribers self)
  /\ sinks_within_Exception self
  /\ pandas_within_Exception.

(** The answers of the file system to the iterations of the streaming
    loop are values or raises within class Exception. *)
Definition answers_within_Exception (answers : list (result Z * Env)) : Prop :=
  forall poll_mtime env,
    In (poll_mtime, env) answers ->
    within_Exception poll_mtime /\ env_within_Exception env.

(** A subscriber that calls [sys.exit(0)]. *)
Definition exiting : Callback :=
  {| cb_id := 2;
     cb_body := fun _ _ _ => Raise (Exception "SystemExit" "0") |}.

(** ** Basic facts *)

(** Case analysis on the next test of a method body. *)
Ltac break_match :=
  match goal with
  | |- context [match ?r with Ok _ => _ | Raise _ => _ end] => destruct r eqn:?
  | |- context [match ?o with Some _ => _ | None => _ end] => destruct o eqn:?
  | |- context [if ?b then _ else _] => destruct b eqn:?
  end.

Lemma skipn_length_app (A : Type) (l1 l2 : list A) :
  skipn (List.length l1) (l1 ++ l2) = l2.
Proof.
  induction l1 as [| x l1 IH]; simpl; auto.
Qed.

Lemma new_events_app (w : World) (self' : CSVStreamingManager) (evs : list Event) :
  new_events w {| self_ := self'; trace := trace w ++ evs |} = evs.
Proof.
  unfold new_events; simpl. apply skipn_length_app.
Qed.

Lemma calls_of_app (l1 l2 : list Event) :
  calls_of (l1 ++ l2) = (calls_of l1 ++ calls_of l2)%list.
Proof.
  induction l1 as [| ev l1 IH]; simpl; auto.
  destruct ev; simpl; auto. now rewrite IH.
Qed.

Lemma calls_of_dispatch (subs : list Callback) (data : DataFrame)
    (changes : pyval) (before : list Event) :
  calls_of (dispatch_events subs data changes before)
  = map (fun cb => (cb_id cb, data, changes)) subs.
Proof.
  revert before.
  induction subs as [| c rest IH]; intros before; simpl; auto.
  f_equal.
  rewrite calls_of_app, IH.
  destruct (cb_body c before data changes); reflexivity.
Qed.

Lemma calls_to_dispatch (i : nat) (subs : list Callback) (data : DataFrame)
    (changes : pyval) (before : list Event) :
  calls_to i (dispatch_events subs data changes before) = registrations i subs.
Proof.
  unfold calls_to, registrations.
  rewrite calls_of_dispatch.
  induction subs as [| c rest IH]; simpl; auto.
  destruct (Nat.eqb i (cb_id c)); simpl; auto.
Qed.

Section Pipeline.
Context {pandas : Pandas}.

Lemma notify_each_run (subs : list Callback) (data : DataFrame)
    (changes : pyval) (w : World) :
  notify_each subs data changes w
  = (Ok tt, {| self_ := self_ w;
               trace := trace w ++ dispatch_events subs data changes (trace w) |}).
Proof.
  revert w.
  induction subs as [| c rest IH]; intros w.
  - simpl. unfold ret. rewrite app_nil_r. destruct w; reflexivity.
  - cbn [notify_each dispatch_events].
    unfold bind, try_except, call_subscriber at 1.
    destruct (cb_body c (trace w) data changes) as [[] | e]; cbn.
    + rewrite IH. cbn. now rewrite <- app_assoc.
    + rewrite IH. cbn. now rewrite <- !app_assoc.
Qed.

Lemma notify_run (data : DataFrame) (changes : pyval) (w : World) :
  run (_notify_subscribers data changes) w
  = (Ok tt, {| self_ := self_ w;
               trace := trace w
                        ++ dispatch_events (subscribers (self_ w)) data changes (trace w) |}).
Proof.
  unfold run, _notify_subscribers, bind, get_self.
  apply notify_each_run.
Qed.

(** A broadcast never raises, leaves the manager as it is and calls no
    subscriber. *)
Lemma broadcast_run (now : string) (data : DataFrame) (changes : pyval) (w : World) :
  exists evs,
    run (_broadcast_data now data changes) w
    = (Ok tt, {| self_ := self_ w; trace := trace w ++ evs |})
    /\ calls_of evs = [] /\ stored_in evs = [].
Proof.
  unfold run, _broadcast_data, logger_error, try_except, bind, get_self,
    lift, ret, emit.
  destruct w as [self tr]; cbn -[String.append].
  repeat (break_match; cbn -[String.append]).
  all: repeat match goal with u : unit |- _ => destruct u end.
  all: first
    [ exists []; split; [rewrite app_nil_r; reflexivity | split; reflexivity]
    | eexists; split; [rewrite <- ?app_assoc; reflexivity | split; reflexivity] ].
Qed.

End Pipeline.

Section FileChange.
Context {pandas : Pandas}.

(** A failed parse: one error record, nothing else. *)
Lemma handle_parse_error (env : Env) (w : World) (e : exn) :
  read_csv env = Raise e ->
  run (_handle_file_change env) w
  = (Ok tt, {| self_ := self_ w;
               trace := trace w
                        ++ [Logged "ERROR" ("Error processing CSV update: " ++ str_exn e)] |}).
Proof.
  intros Hread.
  unfold run, _handle_file_change, try_except, bind, lift.
  rewrite Hread. reflexivity.
Qed.

(** A table that fails validation: one warning, nothing else. *)
Lemma handle_schema_mismatch (env : Env) (w : World) (df : DataFrame) :
  read_csv env = Ok df ->
  _validate_columns df = false ->
  run (_handle_file_change env) w
  = (Ok tt, {| self_ := self_ w;
               trace := trace w
                        ++ [Logged "WARNING" "CSV columns don't match expected schema"] |}).
Proof.
  intros Hread Hval.
  unfold run, _handle_file_change, try_except, bind, lift.
  rewrite Hread, Hval. reflexivity.
Qed.

(** A table that passes validation, with a readable modification time and
    a change summary that could be computed: the commit. *)
Lemma handle_commit (env : Env) (w : World) (df : DataFrame) (m : Z)
    (changes : pyval) :
  read_csv env = Ok df ->
  _validate_columns df = true ->
  stat_mtime env = Ok m ->
  _calculate_changes (set_last_modified m (self_ w)) (now_changes env) df
  = Ok changes ->
  exists evs,
    run (_handle_file_change env) w
    = (Ok tt,
       {| self_ := set_last_data df (set_last_modified m (self_ w));
          trace := trace w
                   ++ [Stored df]
                   ++ dispatch_events (subscribers (self_ w)) df changes
                        (trace w ++ [Stored df])
                   ++ evs
                   ++ [Logged "INFO" ("Processed CSV update with "
                                      ++ str_nat (len df) ++ " rows")] |})
    /\ calls_of evs = [] /\ stored_in evs = [].
Proof.
  intros Hread Hval Hstat Hcalc.
  unfold run, _handle_file_change, try_except.
  unfold bind at 1, lift at 1. rewrite Hread, Hval. cbn [negb].
  unfold bind at 1, lift at 1. rewrite Hstat.
  unfold bind at 1, modify_self at 1.
  unfold bind at 1, get_self at 1. cbn [self_ trace].
  unfold bind at 1, lift at 1. rewrite Hcalc.
  unfold bind at 1, modify_self at 1. cbn [self_ trace].
  unfold bind at 1, emit at 1. cbn [self_ trace].
  unfold bind at 1.
  change (_notify_subscribers df changes ?w0)
    with (run (_notify_subscribers df changes) w0).
  rewrite notify_run. cbn [self_ trace subscribers set_last_data set_last_modified].
  unfold bind at 1.
  match goal with
  | |- context [_broadcast_data ?n ?d ?c ?w0] =>
      destruct (broadcast_run n d c w0) as (evs & Hb & Hcalls & Hstored);
      unfold run in Hb; rewrite Hb
  end.
  exists evs. split; [| split; assumption].
  unfold logger_info, emit. cbn [self_ trace].
  now rewrite <- !app_assoc.
Qed.

(** The modification time cannot be read after a valid parse: one error
    record, nothing else. *)
Lemma handle_stat_error (env : Env) (w : World) (df : DataFrame) (e : exn) :
  read_csv env = Ok df ->
  _validate_columns df = true ->
  stat_mtime env = Raise e ->
  run (_handle_file_change env) w
  = (Ok tt, {| self_ := self_ w;
               trace := trace w
                        ++ [Logged "ERROR" ("Error processing CSV update: " ++ str_exn e)] |}).
Proof.
  intros Hread Hval Hstat.
  unfold run, _handle_file_change, try_except, bind, lift.
  rewrite Hread, Hval, Hstat. reflexivity.
Qed.

(** The change summary cannot be computed: the modification time has been
    recorded already, the table is not installed and nobody is told. *)
Lemma handle_changes_error (env : Env) (w : World) (df : DataFrame) (m : Z)
    (e : exn) :
  read_csv env = Ok df ->
  _validate_columns df = true ->
  stat_mtime env = Ok m ->
  _calculate_changes (set_last_modified m (self_ w)) (now_changes env) df
  = Raise e ->
  run (_handle_file_change env) w
  = (Ok tt, {| self_ := set_last_modified m (self_ w);
               trace := trace w
                        ++ [Logged "ERROR" ("Error processing CSV update: " ++ str_exn e)] |}).
Proof.
  intros Hread Hval Hstat Hcalc.
  unfold run, _handle_file_change, try_except.
  unfold bind at 1, lift at 1. rewrite Hread, Hval. cbn [negb].
  unfold bind at 1, lift at 1. rewrite Hstat.
  unfold bind at 1, modify_self at 1.
  unfold bind at 1, get_self at 1. cbn [self_ trace].
  unfold bind at 1, lift at 1. rewrite Hcalc.
  reflexivity.
Qed.

(** Whatever the environment answers, [_handle_file_change] returns
    normally, and the manager it leaves is the one it found, or that one
    with a new modification time, or that one with a new modification time
    and the validated table just read. *)
Lemma handle_outcomes (env : Env) (w : World) :
  fst (run (_handle_file_change env) w) = Ok tt
  /\ (self_ (snd (run (_handle_file_change env) w)) = self_ w
      \/ (exists df m,
            read_csv env = Ok df /\ _validate_columns df = true
            /\ stat_mtime env = Ok m
            /\ self_ (snd (run (_handle_file_change env) w))
               = set_last_modified m (self_ w))
      \/ (exists df m,
            read_csv env = Ok df /\ _validate_columns df = true
            /\ stat_mtime env = Ok m
            /\ self_ (snd (run (_handle_file_change env) w))
               = set_last_data df (set_last_modified m (self_ w)))).
Proof.
  destruct (read_csv env) as [df | e] eqn:Hread.
  2: { rewrite (handle_parse_error env w Hread). cbn.
       split; [reflexivity | left; reflexivity]. }
  destruct (_validate_columns df) eqn:Hval.
  2: { rewrite (handle_schema_mismatch env w Hread Hval). cbn.
       split; [reflexivity | left; reflexivity]. }
  destruct (stat_mtime env) as [m | e] eqn:Hstat.
  2: { rewrite (handle_stat_error env w Hread Hval Hstat). cbn.
       split; [reflexivity | left; reflexivity]. }
  destruct (_calculate_changes (set_last_modified m (self_ w)) (now_changes env) df)
    as [changes | e] eqn:Hcalc.
  - destruct (handle_commit env w Hread Hval Hstat Hcalc) as (evs & Hrun & _).
    rewrite Hrun. cbn [fst snd self_]. split; [reflexivity |].
    right. right. exists df, m. repeat split; auto.
  - rewrite (handle_changes_error env w Hread Hval Hstat Hcalc).
    cbn [fst snd self_]. split; [reflexivity |].
    right. left. exists df, m. repeat split; auto.
Qed.

(** A table that passes validation has its modification time recorded,
    whether or not the change summary can then be computed. *)
Lemma handle_records_marker (env : Env) (w : World) (df : DataFrame) (m : Z) :
  read_csv env = Ok df ->
  _validate_columns df = true ->
  stat_mtime env = Ok m ->
  last_modified (self_ (snd (run (_handle_file_change env) w))) = Some m.
Proof.
  intros Hread Hval Hstat.
  destruct (_calculate_changes (set_last_modified m (self_ w)) (now_changes env) df)
    as [changes | e] eqn:Hcalc.
  - destruct (handle_commit env w Hread Hval Hstat Hcalc) as (evs & Hrun & _).
    now rewrite Hrun.
  - now rewrite (handle_changes_error env w Hread Hval Hstat Hcalc).
Qed.

(** An iteration of the streaming loop, case by case. *)
Lemma loop_body_run (poll_mtime : result Z) (env : Env) (w : World) :
  run (streaming_loop_body poll_mtime env) w
  = match poll_mtime with
    | Raise e =>
        (Ok false,
         {| self_ := self_ w;
            trace := trace w
                     ++ [Logged "ERROR" ("Error in streaming loop: " ++ str_exn e);
                         Slept 5] |})
    | Ok current_modified =>
        if file_modified (self_ w) current_modified then
          let w1 := snd (run (_handle_file_change env) w) in
          (Ok true, {| self_ := self_ w1; trace := trace w1 ++ [Slept 1] |})
        else
          (Ok false, {| self_ := self_ w; trace := trace w ++ [Slept 1] |})
    end.
Proof.
  unfold run at 1, streaming_loop_body, try_except.
  unfold bind at 1, lift at 1.
  destruct poll_mtime as [m | e].
  - unfold bind at 1, get_self at 1.
    destruct (file_modified (self_ w) m).
    + unfold bind at 1. unfold bind at 1.
      pose proof (proj1 (handle_outcomes env w)) as Hok. unfold run in *.
      destruct (_handle_file_change env w) as [r w1]. cbn in Hok. subst r.
      reflexivity.
    + reflexivity.
  - unfold bind, logger_error, sleep, emit, ret. cbn [self_ trace].
    now rewrite <- app_assoc.
Qed.

End FileChange.

(** ** The subscriber registry *)

Lemma raised_in_app (l1 l2 : list Event) :
  raised_in (l1 ++ l2) = (raised_in l1 ++ raised_in l2)%list.
Proof.
  induction l1 as [| ev l1 IH]; simpl; auto.
  destruct ev as [| i d c [u | e] | | | |]; simpl; auto. now rewrite IH.
Qed.

Lemma logged_in_app (level : string) (l1 l2 : list Event) :
  logged_in level (l1 ++ l2) = (logged_in level l1 ++ logged_in level l2)%list.
Proof.
  induction l1 as [| ev l1 IH]; simpl; auto.
  destruct ev; simpl; auto.
  destruct (String.eqb level0 level); simpl; now rewrite IH.
Qed.

(** In a dispatch, the error records are those of the subscribers that
    raised, one each, in the order of the calls. *)
Lemma logged_dispatch (subs : list Callback) (data : DataFrame)
    (changes : pyval) (before : list Event) :
  logged_in "ERROR" (dispatch_events subs data changes before)
  = map (fun e => "Error in subscriber callback: " ++ str_exn e)
        (raised_in (dispatch_events subs data changes before)).
Proof.
  revert before.
  induction subs as [| c rest IH]; intros before; auto.
  cbn [dispatch_events].
  destruct (cb_body c before data changes) as [u | e].
  - cbn [app raised_in logged_in]. apply IH.
  - cbn [app raised_in logged_in String.eqb Ascii.eqb Bool.eqb].
    cbn [map]. f_equal. apply IH.
Qed.

Lemma stored_in_app (l1 l2 : list Event) :
  stored_in (l1 ++ l2) = (stored_in l1 ++ stored_in l2)%list.
Proof.
  induction l1 as [| ev l1 IH]; simpl; auto.
  destruct ev; simpl; auto. now rewrite IH.
Qed.

(** A dispatch assigns nothing. *)
Lemma stored_dispatch (subs : list Callback) (data : DataFrame)
    (changes : pyval) (before : list Event) :
  stored_in (dispatch_events subs data changes before) = [].
Proof.
  revert before.
  induction subs as [| c rest IH]; intros before; auto.
  cbn [dispatch_events]. rewrite stored_in_app, IH.
  destruct (cb_body c before data changes); reflexivity.
Qed.


Lemma registrations_remove_first (cb : Callback) (l : list Callback) :
  registrations (cb_id cb) (remove_first cb l)
  = Nat.pred (registrations (cb_id cb) l).
Proof.
  unfold registrations.
  induction l as [| c rest IH]; auto.
  cbn [remove_first filter]. unfold same_callback at 1.
  destruct (Nat.eqb (cb_id cb) (cb_id c)) eqn:Heq.
  - reflexivity.
  - cbn [filter]. rewrite Heq. exact IH.
Qed.

Lemma remove_first_unregistered (cb : Callback) (l : list Callback) :
  registered cb l = false -> remove_first cb l = l.
Proof.
  unfold registered.
  induction l as [| c rest IH]; auto.
  cbn [existsb remove_first]. intros H.
  apply orb_false_iff in H. destruct H as [H1 H2].
  rewrite H1. f_equal. auto.
Qed.

Section Registry.
Context {pandas : Pandas}.


Lemma unsubscribe_subscribers (cb : Callback) (w : World) :
  subscribers (self_ (after (unsubscribe cb) w))
  = remove_first cb (subscribers (self_ w)).
Proof.
  unfold after, run, unsubscribe, bind, get_self.
  destruct (registered cb (subscribers (self_ w))) eqn:Hreg.
  - reflexivity.
  - cbn. symmetry. now apply remove_first_unregistered.
Qed.

Lemma notify_after (data : DataFrame) (changes : pyval) (w : World) :
  after (_notify_subscribers data changes) w
  = {| self_ := self_ w;
       trace := trace w
                ++ dispatch_events (subscribers (self_ w)) data changes (trace w) |}.
Proof.
  unfold after. now rewrite notify_run.
Qed.

Lemma notify_new_events (data : DataFrame) (changes : pyval) (w : World) :
  new_events w (after (_notify_subscribers data changes) w)
  = dispatch_events (subscribers (self_ w)) data changes (trace w).
Proof.
  rewrite notify_after. apply new_events_app.
Qed.

(** Where the subscribers raise within class Exception, the dispatch is
    the one of the methods above. *)
Lemma notify_each_within_Exception (subs : list Callback) (data : DataFrame)
    (changes : pyval) (w : World) :
  subscribers_within_Exception subs ->
  Exits.notify_each subs data changes w = notify_each subs data changes w.
Proof.
  revert w.
  induction subs as [| c rest IH]; intros w Hsubs; [reflexivity |].
  cbn [Exits.notify_each notify_each]. unfold bind.
  assert (Hc : Exits.try_except (call_subscriber c data changes)
                 (fun e => logger_error ("Error in subscriber callback: " ++ str_exn e)) w
               = try_except (call_subscriber c data changes)
                   (fun e => logger_error ("Error in subscriber callback: " ++ str_exn e)) w).
  { unfold Exits.try_except, try_except, call_subscriber.
    pose proof (Hsubs c (trace w) data changes (or_introl eq_refl)) as Hin.
    destruct (cb_body c (trace w) data changes) as [u | e]; [reflexivity |].
    cbn in Hin. now rewrite Hin. }
  rewrite Hc.
  destruct (try_except (call_subscriber c data changes)
              (fun e => logger_error ("Error in subscriber callback: " ++ str_exn e)) w)
    as [[u | e] w']; [| reflexivity].
  apply IH. intros c' tr d ch Hin. apply Hsubs. now right.
Qed.

Lemma notify_within_Exception (data : DataFrame) (changes : pyval) (w : World) :
  subscribers_within_Exception (subscribers (self_ w)) ->
  run (Exits._notify_subscribers data changes) w
  = run (_notify_subscribers data changes) w.
Proof.
  intros Hsubs.
  unfold run, Exits._notify_subscribers, _notify_subscribers, bind, get_self.
  now apply notify_each_within_Exception.
Qed.

(** In the events of a dispatch, each subscriber has its call, made after
    the events before it; the outcome recorded is that of its body, and an
    outcome that is a raise is followed at once by its error record. *)
Lemma dispatch_events_split (c : Callback) (subs : list Callback)
    (data : DataFrame) (changes : pyval) (before : list Event) :
  In c subs ->
  exists pre post,
    dispatch_events subs data changes before
    = (pre ++ Called (cb_id c) data changes
                (cb_body c (before ++ pre) data changes) :: post)%list
    /\ forall e,
         cb_body c (before ++ pre) data changes = Raise e ->
         exists post',
           post = Logged "ERROR" ("Error in subscriber callback: " ++ str_exn e)
                  :: post'.
Proof.
  revert before.
  induction subs as [| s rest IH]; intros before Hin; [contradiction |].
  cbn [dispatch_events].
  destruct Hin as [-> | Hin].
  - exists []. eexists. rewrite app_nil_r. cbn [app]. split; [reflexivity |].
    intros e He. rewrite He. eexists. reflexivity.
  - match goal with
    | |- context [dispatch_events rest data changes (before ++ ?evs0)] =>
        destruct (IH (before ++ evs0)%list Hin) as (pre & post & Heq & Hlog);
        exists (evs0 ++ pre)%list, post
    end.
    rewrite Heq, <- !app_assoc. cbn [app]. rewrite <- !app_assoc in *.
    split; [reflexivity | exact Hlog].
Qed.

Lemma In_remove_first (cb c : Callback) (l : list Callback) :
  In c (remove_first cb l) -> In c l.
Proof.
  induction l as [| x rest IH]; cbn [remove_first]; [auto |].
  destruct (same_callback cb x); cbn; intuition.
Qed.

(** C4, as the code has it: in every dispatch of a (snapshot, delta) pair
    to subscribers that raise within class Exception, the dispatch returns
    normally; every registered callback is called, in registration order,
    with that pair, after the events before it; the outcome of a call is
    that of the callback's body, and a raise is caught and followed at once
    by its error record, one per raise; the registry is left as it was, so
    that the next dispatch calls the same callbacks again; [unsubscribe]
    takes one registration of its callback away, and the dispatches that
    follow call it one time fewer. *)
Theorem C4_raising_callback_is_isolated (w : World) (data : DataFrame)
    (changes : pyval) :
  subscribers_within_Exception (subscribers (self_ w)) ->
  let w1 := after (Exits._notify_subscribers data changes) w in
  let evs := new_events w w1 in
  fst (run (Exits._notify_subscribers data changes) w) = Ok tt
  /\ (forall c,
        In c (subscribers (self_ w)) ->
        exists pre post,
          evs = (pre ++ Called (cb_id c) data changes
                          (cb_body c (trace w ++ pre) data changes) :: post)%list
          /\ forall e,
               cb_body c (trace w ++ pre) data changes = Raise e ->
               exists post',
                 post = Logged "ERROR" ("Error in subscriber callback: " ++ str_exn e)
                        :: post')
  /\ calls_of evs
     = map (fun cb => (cb_id cb, data, changes)) (subscribers (self_ w))
  /\ logged_in "ERROR" evs
     = map (fun e => "Error in subscriber callback: " ++ str_exn e) (raised_in evs)
  /\ subscribers (self_ w1) = subscribers (self_ w)
  /\ (forall (data' : DataFrame) (changes' : pyval),
        calls_of (new_events w1 (after (Exits._notify_subscribers data' changes') w1))
        = map (fun cb => (cb_id cb, data', changes')) (subscribers (self_ w)))
  /\ (forall (cb : Callback) (data' : DataFrame) (changes' : pyval),
        let w2 := after (unsubscribe cb) w1 in
        calls_to (cb_id cb)
          (new_events w2 (after (Exits._notify_subscribers data' changes') w2))
        = Nat.pred (registrations (cb_id cb) (subscribers (self_ w)))).
Proof.
  intros Hsubs w1 evs.
  assert (Hw1 : w1 = after (_notify_subscribers data changes) w).
  { unfold w1, after. now rewrite notify_within_Exception. }
  assert (Hevs : evs = dispatch_events (subscribers (self_ w)) data changes (trace w)).
  { unfold evs. rewrite Hw1. apply notify_new_events. }
  assert (Hkeep : subscribers (self_ w1) = subscribers (self_ w)).
  { rewrite Hw1. now rewrite notify_after. }
  split; [rewrite notify_within_Exception by exact Hsubs; now rewrite notify_run |].
  split; [intros c Hin; rewrite Hevs; now apply dispatch_events_split |].
  split; [rewrite Hevs; apply calls_of_dispatch |].
  split; [rewrite Hevs; apply logged_dispatch |].
  split; [exact Hkeep |].
  split.
  - intros data' changes'. unfold after.
    rewrite notify_within_Exception by (rewrite Hkeep; exact Hsubs).
    fold (after (_notify_subscribers data' changes') w1).
    rewrite notify_new_events, calls_of_dispatch. now rewrite Hkeep.
  - intros cb data' changes' w2.
    assert (Hsubs2 : subscribers (self_ w2) = remove_first cb (subscribers (self_ w))).
    { unfold w2. rewrite unsubscribe_subscribers. now rewrite Hkeep. }
    unfold after at 1.
    rewrite notify_within_Exception.
    + fold (after (_notify_subscribers data' changes') w2).
      rewrite notify_new_events, calls_to_dispatch, Hsubs2.
      apply registrations_remove_first.
    + rewrite Hsubs2. intros c tr d ch Hin. apply Hsubs.
      eapply In_remove_first. exact Hin.
Qed.

End Registry.

Section Subscriptions.
Context {pandas : Pandas}.

(** The file-change pipeline never touches the registry. *)
Lemma handle_subscribers (env : Env) (w : World) :
  subscribers (self_ (after (_handle_file_change env) w)) = subscribers (self_ w).
Proof.
  unfold after.
  destruct (handle_outcomes env w) as [_ [H | [(df & m & _ & _ & _ & H) | (df & m & _ & _ & _ & H)]]];
    rewrite H; reflexivity.
Qed.

(** C5, as the code has it: no dispatch destroys a subscription. After a
    dispatch, and after a whole run of the file-change pipeline, the
    registry is the one found before, whether or not callbacks raised; a
    subscription is created by [subscribe] and destroyed by [unsubscribe]
    only, which removes the first registration of its callback. *)
Theorem C5_dispatch_keeps_subscriptions (w : World) (data : DataFrame)
    (changes : pyval) (env : Env) (cb : Callback) :
  subscribers (self_ (after (_notify_subscribers data changes) w))
  = subscribers (self_ w)
  /\ registered cb (subscribers (self_ (after (_notify_subscribers data changes) w)))
     = registered cb (subscribers (self_ w))
  /\ subscribers (self_ (after (_handle_file_change env) w)) = subscribers (self_ w)
  /\ subscribers (self_ (after (subscribe cb) w))
     = (subscribers (self_ w) ++ [cb])%list
  /\ subscribers (self_ (after (unsubscribe cb) w))
     = remove_first cb (subscribers (self_ w)).
Proof.
  rewrite notify_after. cbn [self_].
  repeat split.
  - apply handle_subscribers.
  - apply unsubscribe_subscribers.
Qed.


(** C3: an attempt whose parse raises, or whose parsed table lacks a
    required column, returns normally; the manager object, hence the
    committed snapshot and the recorded modification time, is unchanged; the
    only effect is one log record, so no subscriber is called and nothing is
    pushed to a sink. *)
Theorem C3_failed_attempt_changes_nothing (env : Env) (w : World) :
  (exists e, read_csv env = Raise e)
  \/ (exists df c, read_csv env = Ok df /\ In c expected_columns
                   /\ has_column c df = false) ->
  let w' := after (_handle_file_change env) w in
  fst (run (_handle_file_change env) w) = Ok tt
  /\ self_ w' = self_ w
  /\ last_data (self_ w') = last_data (self_ w)
  /\ last_modified (self_ w') = last_modified (self_ w)
  /\ (exists level msg, new_events w w' = [Logged level msg])
  /\ calls_of (new_events w w') = [].
Proof.
  intros H w'.
  assert (Hrun : exists level msg,
             run (_handle_file_change env) w
             = (Ok tt, {| self_ := self_ w;
                          trace := trace w ++ [Logged level msg] |})).
  { destruct H as [[e Hread] | (df & c & Hread & Hin & Hcol)].
    - do 2 eexists. apply (handle_parse_error env w Hread).
    - do 2 eexists. apply (handle_schema_mismatch env w Hread).
      unfold _validate_columns.
      destruct (forallb (fun col => has_column col df) expected_columns) eqn:Hall;
        [| reflexivity].
      rewrite forallb_forall in Hall. rewrite (Hall c Hin) in Hcol.
      discriminate Hcol. }
  destruct Hrun as (level & msg & Hrun).
  unfold w', after. rewrite Hrun. cbn [fst snd self_].
  rewrite new_events_app.
  repeat split; eauto.
Qed.

End Subscriptions.

(** ** The committed snapshot *)

Lemma validate_columns_In (df : DataFrame) (c : string) :
  _validate_columns df = true -> In c expected_columns -> In c (columns df).
Proof.
  unfold _validate_columns, has_column. intros Hall Hin.
  rewrite forallb_forall in Hall. specialize (Hall c Hin).
  apply existsb_exists in Hall. destruct Hall as (x & Hx & Heq).
  apply String.eqb_eq in Heq. now subst x.
Qed.

Lemma has_column_getitem (df : DataFrame) (c : string) :
  has_column c df = true -> exists s, getitem df c = Ok s.
Proof.
  unfold has_column, getitem, columns. destruct df as [n cols]. cbn [frame].
  induction cols as [| [c' s'] rest IH]; cbn.
  - discriminate.
  - destruct (String.eqb c c'); cbn; eauto.
Qed.

Lemma validate_has_column (df : DataFrame) (c : string) :
  _validate_columns df = true -> In c expected_columns -> has_column c df = true.
Proof.
  unfold _validate_columns. intros Hall Hin.
  rewrite forallb_forall in Hall. auto.
Qed.

Section Snapshot.
Context {pandas : Pandas}.

(** What a run of the file-change pipeline appends to the trace: either
    no assignment, the snapshot staying as it was, or the assignment of the
    table just parsed, which passed validation and is the new snapshot. *)
Lemma handle_writes (env : Env) (w : World) :
  exists evs,
    trace (after (_handle_file_change env) w) = (trace w ++ evs)%list
    /\ ((stored_in evs = []
         /\ last_data (self_ (after (_handle_file_change env) w))
            = last_data (self_ w))
        \/ (exists df,
              read_csv env = Ok df /\ _validate_columns df = true
              /\ stored_in evs = [df]
              /\ last_data (self_ (after (_handle_file_change env) w)) = Some df)).
Proof.
  unfold after.
  destruct (read_csv env) as [df | e] eqn:Hread.
  2: { rewrite (handle_parse_error env w Hread). cbn [snd self_ trace].
       eexists. split; [reflexivity | left; split; reflexivity]. }
  destruct (_validate_columns df) eqn:Hval.
  2: { rewrite (handle_schema_mismatch env w Hread Hval). cbn [snd self_ trace].
       eexists. split; [reflexivity | left; split; reflexivity]. }
  destruct (stat_mtime env) as [m | e] eqn:Hstat.
  2: { rewrite (handle_stat_error env w Hread Hval Hstat). cbn [snd self_ trace].
       eexists. split; [reflexivity | left; split; reflexivity]. }
  destruct (_calculate_changes (set_last_modified m (self_ w)) (now_changes env) df)
    as [changes | e] eqn:Hcalc.
  - destruct (handle_commit env w Hread Hval Hstat Hcalc) as (evs & Hrun & _ & Hst).
    rewrite Hrun. cbn [snd self_ trace].
    eexists. split; [reflexivity |].
    right. exists df. repeat split; auto.
    rewrite !stored_in_app, stored_dispatch, Hst. reflexivity.
  - rewrite (handle_changes_error env w Hread Hval Hstat Hcalc).
    cbn [snd self_ trace].
    eexists. split; [reflexivity | left; split; reflexivity].
Qed.

(** The same for any step of the manager. *)
Lemma step_writes (w w' : World) :
  step w w' ->
  exists evs,
    trace w' = (trace w ++ evs)%list
    /\ ((stored_in evs = [] /\ last_data (self_ w') = last_data (self_ w))
        \/ (exists df,
              _validate_columns df = true
              /\ stored_in evs = [df]
              /\ last_data (self_ w') = Some df)).
Proof.
  assert (Hhandle : forall env w0 tail,
             stored_in tail = [] ->
             exists evs,
               (trace (snd (run (_handle_file_change env) w0)) ++ tail
                = trace w0 ++ evs)%list
               /\ ((stored_in evs = []
                    /\ last_data (self_ (snd (run (_handle_file_change env) w0)))
                       = last_data (self_ w0))
                   \/ (exists df,
                         _validate_columns df = true
                         /\ stored_in evs = [df]
                         /\ last_data (self_ (snd (run (_handle_file_change env) w0)))
                            = Some df))).
  { intros env w0 tail Htail.
    destruct (handle_writes env w0) as (evs & Htr & Hcases). unfold after in *.
    exists (evs ++ tail)%list. rewrite Htr, <- app_assoc. split; [reflexivity |].
    rewrite stored_in_app, Htail, app_nil_r.
    destruct Hcases as [[Hs Hl] | (df & _ & Hval & Hs & Hl)]; [left | right]; eauto. }
  intros Hstep. destruct Hstep.
  - eexists. split; [reflexivity | left; split; reflexivity].
  - unfold run, unsubscribe, bind, get_self.
    destruct (registered cb (subscribers (self_ w))).
    + eexists. split; [reflexivity | left; split; reflexivity].
    + exists []. cbn. rewrite app_nil_r. split; [reflexivity | left; split; reflexivity].
  - destruct (Hhandle env w [] eq_refl) as (evs & Htr & Hcases).
    rewrite app_nil_r in Htr. eauto.
  - rewrite loop_body_run.
    destruct poll_mtime as [m | e].
    + destruct (file_modified (self_ w) m); cbn [snd self_ trace].
      * apply Hhandle. reflexivity.
      * eexists. split; [reflexivity | left; split; reflexivity].
    + eexists. split; [reflexivity | left; split; reflexivity].
  - unfold run, start_monitoring. destruct exists_; cbn -[String.append].
    + eexists. split; [reflexivity | left; split; reflexivity].
    + eexists. split; [reflexivity | left; split; reflexivity].
  - destruct observer as [[[] | e] |].
    + eexists. split; [reflexivity | left; split; reflexivity].
    + exists []. cbn. rewrite app_nil_r.
      split; [reflexivity | left; split; reflexivity].
    + eexists. split; [reflexivity | left; split; reflexivity].
Qed.

(** A step keeps the committed snapshot or replaces it by a whole table
    that passed validation. *)
Lemma step_last_data (w w' : World) :
  step w w' ->
  last_data (self_ w') = last_data (self_ w)
  \/ exists df, _validate_columns df = true /\ last_data (self_ w') = Some df.
Proof.
  intros Hstep.
  destruct (step_writes Hstep) as (evs & _ & [[_ H] | (df & Hval & _ & H)]); eauto.
Qed.

(** Over several steps: the trace grows, every table assigned meanwhile
    passed validation, and the snapshot held at the end is the last one
    assigned, or the one held at the start when none was. *)
Lemma steps_writes (w w' : World) :
  steps w w' ->
  exists evs,
    trace w' = (trace w ++ evs)%list
    /\ Forall (fun df => _validate_columns df = true) (stored_in evs)
    /\ last_data (self_ w')
       = last (map Some (stored_in evs)) (last_data (self_ w)).
Proof.
  intros Hsteps.
  induction Hsteps as [w | w w1 w2 _ IH Hstep].
  - exists []. rewrite app_nil_r. repeat split. constructor.
  - destruct IH as (evs & Htr & Hall & Hlast).
    destruct (step_writes Hstep) as (evs' & Htr' & Hcases).
    exists (evs ++ evs')%list. rewrite Htr', Htr, <- app_assoc.
    split; [reflexivity |]. rewrite stored_in_app.
    destruct Hcases as [[Hs Hl] | (df & Hval & Hs & Hl)]; rewrite Hs.
    + rewrite app_nil_r. split; [exact Hall |]. now rewrite Hl.
    + split.
      * apply Forall_app. split; [exact Hall |]. constructor; [exact Hval | constructor].
      * rewrite Hl, map_app. cbn [map]. now rewrite last_last.
Qed.

(** The snapshot of a reachable state passed validation. *)
Lemma reachable_snapshot_valid (w : World) :
  reachable w ->
  match last_data (self_ w) with
  | None => True
  | Some df => _validate_columns df = true
  end.
Proof.
  intros Hreach.
  induction Hreach as [path interval | w w' _ IH Hstep].
  - exact I.
  - destruct (step_last_data Hstep) as [Heq | (df & Hval & Heq)];
      rewrite Heq; auto.
Qed.

(** C10: in every reachable state the stored snapshot is absent or is a
    table that passed [_validate_columns], hence one whose columns include
    each of the fifteen expected names: [last_data] is assigned only by
    [_handle_file_change], after validation. *)
Theorem C10_stored_snapshot_has_required_columns (w : World) :
  reachable w ->
  List.length expected_columns = 15%nat
  /\ match get_latest_data (self_ w) with
     | None => True
     | Some df =>
         _validate_columns df = true
         /\ forall c, In c expected_columns -> In c (columns df)
     end.
Proof.
  intros Hreach. split; [reflexivity |].
  unfold get_latest_data.
  pose proof (reachable_snapshot_valid Hreach) as Hval.
  destruct (last_data (self_ w)) as [df |]; [| exact I].
  split; [exact Hval |]. intros c. now apply validate_columns_In.
Qed.

(** C8, as the code has it: once a snapshot is committed, whatever the
    manager does next, the values [self.last_data] takes are that snapshot
    and then the tables assigned to it, each a whole table that passed
    validation; [get_latest_data] therefore never returns [None] again, nor
    a partly built table, and after the steps it returns the last table
    assigned (the first snapshot if none was). No row count is required of a
    committed table. *)
Theorem C8_accessor_returns_whole_snapshot (w w' : World) (old : DataFrame) :
  last_data (self_ w) = Some old ->
  steps w w' ->
  exists evs,
    trace w' = (trace w ++ evs)%list
    /\ Forall (fun df => _validate_columns df = true) (stored_in evs)
    /\ get_latest_data (self_ w') = Some (last (stored_in evs) old).
Proof.
  intros Hold Hsteps.
  destruct (steps_writes Hsteps) as (evs & Htr & Hall & Hlast).
  exists evs. repeat split; auto.
  unfold get_latest_data. rewrite Hlast, Hold.
  clear. induction (stored_in evs) as [| df rest IH]; [reflexivity |].
  cbn [map]. destruct rest as [| df' rest']; [reflexivity |].
  exact IH.
Qed.

End Snapshot.

(** ** The change summary *)

Lemma inventory_level_expected : In "Inventory Level" expected_columns.
Proof. cbn. tauto. Qed.

Section Summary.
Context {pandas : Pandas}.

(** What a commit hands to the subscribers and leaves in the manager. *)
Lemma handle_commit_calls (env : Env) (w : World) (df : DataFrame) (m : Z)
    (changes : pyval) :
  read_csv env = Ok df ->
  _validate_columns df = true ->
  stat_mtime env = Ok m ->
  _calculate_changes (self_ w) (now_changes env) df = Ok changes ->
  self_ (after (_handle_file_change env) w)
  = set_last_data df (set_last_modified m (self_ w))
  /\ calls_of (new_events w (after (_handle_file_change env) w))
     = map (fun cb => (cb_id cb, df, changes)) (subscribers (self_ w)).
Proof.
  intros Hread Hval Hstat Hcalc.
  destruct (handle_commit env w Hread Hval Hstat Hcalc) as (evs & Hrun & Hcalls & _).
  unfold after. rewrite Hrun. cbn [snd self_]. split; [reflexivity |].
  rewrite new_events_app, !calls_of_app, calls_of_dispatch, Hcalls.
  cbn [calls_of]. now rewrite !app_nil_r.
Qed.

Lemma first_summary (self : CSVStreamingManager) (now : string) (df : DataFrame) :
  last_data self = None ->
  _calculate_changes self now df
  = Ok (PyDict [ ("type", PyStr "initial_load");
                 ("rows", PyInt (Z.of_nat (len df))) ]).
Proof.
  intros Hnone. unfold _calculate_changes. now rewrite Hnone.
Qed.

Lemma update_summary (self : CSVStreamingManager) (now : string)
    (old df : DataFrame) (s : Series) (low : list bool) :
  last_data self = Some old ->
  _validate_columns old = true ->
  _validate_columns df = true ->
  getitem df "Inventory Level" = Ok s ->
  series_lt s 10 = Ok low ->
  _calculate_changes self now df
  = Ok (PyDict
          [ ("type", PyStr "update");
            ("timestamp", PyStr now);
            ("total_rows", PyInt (Z.of_nat (len df)));
            ("changes",
             PyDict
               [ ("inventory_changes",
                  PyDict
                    [ ("low_stock", PyInt (Z.of_nat (len_masked low)));
                      ("out_of_stock",
                       PyInt (Z.of_nat (len_masked (series_eq s 0)))) ]) ]) ]).
Proof.
  intros Hold Hvold Hvdf Hget Hlt.
  unfold _calculate_changes. rewrite Hold.
  rewrite (validate_has_column df Hvdf inventory_level_expected).
  rewrite (validate_has_column old Hvold inventory_level_expected).
  cbn [andb]. unfold inventory_changes. now rewrite Hget, Hlt.
Qed.

(** C1, as the code has it: from a manager without data, the commit of a
    valid table S1 hands the subscribers a summary of kind initial_load
    (with the row count of S1), and the commit of a valid table S2 whose
    inventory column can be compared with a number hands them a summary of
    kind update whose low-stock and out-of-stock indicators count the rows of
    S2, the new table; S1 takes no part in them. *)
Theorem C1_update_counts_rows_of_new_table (w : World) (env1 env2 : Env)
    (S1 S2 : DataFrame) (m1 m2 : Z) (s : Series) (low : list bool) :
  last_data (self_ w) = None ->
  read_csv env1 = Ok S1 -> _validate_columns S1 = true -> stat_mtime env1 = Ok m1 ->
  read_csv env2 = Ok S2 -> _validate_columns S2 = true -> stat_mtime env2 = Ok m2 ->
  getitem S2 "Inventory Level" = Ok s ->
  series_lt s 10 = Ok low ->
  let w1 := after (_handle_file_change env1) w in
  let w2 := after (_handle_file_change env2) w1 in
  let delta1 :=
    PyDict [ ("type", PyStr "initial_load");
             ("rows", PyInt (Z.of_nat (len S1))) ] in
  let delta2 :=
    PyDict
      [ ("type", PyStr "update");
        ("timestamp", PyStr (now_changes env2));
        ("total_rows", PyInt (Z.of_nat (len S2)));
        ("changes",
         PyDict
           [ ("inventory_changes",
              PyDict
                [ ("low_stock", PyInt (Z.of_nat (len_masked low)));
                  ("out_of_stock",
                   PyInt (Z.of_nat (len_masked (series_eq s 0)))) ]) ]) ] in
  _calculate_changes (self_ w) (now_changes env1) S1 = Ok delta1
  /\ calls_of (new_events w w1)
     = map (fun cb => (cb_id cb, S1, delta1)) (subscribers (self_ w))
  /\ get_latest_data (self_ w1) = Some S1
  /\ _calculate_changes (self_ w1) (now_changes env2) S2 = Ok delta2
  /\ calls_of (new_events w1 w2)
     = map (fun cb => (cb_id cb, S2, delta2)) (subscribers (self_ w))
  /\ get_latest_data (self_ w2) = Some S2.
Proof.
  intros Hnone Hread1 Hval1 Hstat1 Hread2 Hval2 Hstat2 Hget Hlt w1 w2 delta1 delta2.
  pose proof (first_summary (self_ w) (now_changes env1) S1 Hnone) as Hd1.
  destruct (handle_commit_calls env1 w Hread1 Hval1 Hstat1 Hd1) as [Hself1 Hcalls1].
  fold w1 in Hself1, Hcalls1.
  assert (Hlast1 : last_data (self_ w1) = Some S1) by now rewrite Hself1.
  assert (Hsubs1 : subscribers (self_ w1) = subscribers (self_ w))
    by now rewrite Hself1.
  pose proof (@update_summary (self_ w1) (now_changes env2) S1 S2 s low
                Hlast1 Hval1 Hval2 Hget Hlt) as Hd2.
  destruct (handle_commit_calls env2 w1 Hread2 Hval2 Hstat2 Hd2) as [Hself2 Hcalls2].
  fold w2 in Hself2, Hcalls2.
  repeat split; auto.
  - now rewrite <- Hsubs1.
  - unfold get_latest_data. now rewrite Hself2.
Qed.

(** C2, as the code has it: for a valid source of five rows whose
    inventory levels are 0, 5, 50, 0 and 20, the commit made while no
    snapshot is held (the first successful one) produces a summary of kind
    initial_load that carries the row count 5 and no indicator; the counts of
    that table against the threshold 10 are 3 low-stock and 2 out-of-stock
    rows, and they are what the summary carries when the table is committed
    as an update. *)
Theorem C2_first_commit_carries_no_indicator (w : World) (env : Env)
    (df : DataFrame) (m : Z) :
  reachable w ->
  read_csv env = Ok df -> _validate_columns df = true -> stat_mtime env = Ok m ->
  getitem df "Inventory Level" = Ok (Int64 [0; 5; 50; 0; 20]) ->
  len df = 5%nat ->
  let delta :=
    match last_data (self_ w) with
    | None => PyDict [ ("type", PyStr "initial_load"); ("rows", PyInt 5) ]
    | Some _ =>
        PyDict
          [ ("type", PyStr "update");
            ("timestamp", PyStr (now_changes env));
            ("total_rows", PyInt 5);
            ("changes",
             PyDict
               [ ("inventory_changes",
                  PyDict [ ("low_stock", PyInt 3); ("out_of_stock", PyInt 2) ]) ]) ]
    end in
  _calculate_changes (self_ w) (now_changes env) df = Ok delta
  /\ calls_of (new_events w (after (_handle_file_change env) w))
     = map (fun cb => (cb_id cb, df, delta)) (subscribers (self_ w))
  /\ indicator "low_stock" delta
     = match last_data (self_ w) with None => None | Some _ => Some 3 end
  /\ indicator "out_of_stock" delta
     = match last_data (self_ w) with None => None | Some _ => Some 2 end
  /\ low_stock_of df = Some 3
  /\ out_of_stock_of df = Some 2.
Proof.
  intros Hreach Hread Hval Hstat Hget Hlen delta.
  assert (Hdelta : _calculate_changes (self_ w) (now_changes env) df = Ok delta).
  { unfold delta.
    pose proof (reachable_snapshot_valid Hreach) as Hold.
    destruct (last_data (self_ w)) as [old |] eqn:Hlast.
    - rewrite (@update_summary (self_ w) (now_changes env) old df
                 (Int64 [0; 5; 50; 0; 20]) [true; true; false; true; false]
                 Hlast Hold Hval Hget eq_refl).
      rewrite Hlen. reflexivity.
    - rewrite (first_summary (self_ w) (now_changes env) df Hlast).
      rewrite Hlen. reflexivity. }
  split; [exact Hdelta |].
  split; [apply (handle_commit_calls env w Hread Hval Hstat Hdelta) |].
  unfold low_stock_of, out_of_stock_of, inventory_changes. rewrite Hget.
  unfold delta. destruct (last_data (self_ w)); repeat split; reflexivity.
Qed.

End Summary.

(** ** The streaming loop and the read accessors *)

(** ** Where nothing is raised outside class Exception

    The methods of module [Exits] are then those embedded first. *)

Section WithinException.
Context {pandas : Pandas}.

Lemma try_except_within_Exception (A : Type) (m : M A) (h : exn -> M A)
    (w : World) :
  within_Exception (fst (m w)) ->
  Exits.try_except m h w = try_except m h w.
Proof.
  unfold Exits.try_except, try_except.
  destruct (m w) as [[a | e] w']; cbn [fst within_Exception]; intros H;
    [reflexivity | now rewrite H].
Qed.

(** What [_calculate_changes] raises is a KeyError or a TypeError. *)
Lemma calculate_changes_within_Exception (self : CSVStreamingManager)
    (now : string) (df : DataFrame) :
  within_Exception (_calculate_changes self now df).
Proof.
  unfold _calculate_changes.
  destruct (last_data self) as [old |]; [| exact I].
  destruct (has_column "Inventory Level" df && has_column "Inventory Level" old);
    [| exact I].
  unfold inventory_changes.
  destruct (getitem df "Inventory Level") as [s | e] eqn:Hget.
  - destruct (series_lt s 10) as [low | e] eqn:Hlt; [exact I |].
    unfold series_lt in Hlt.
    destruct s as [xs | xs | xs | xs]; try discriminate.
    destruct (existsb _ xs); [| discriminate].
    injection Hlt as <-. reflexivity.
  - unfold getitem in Hget.
    destruct (lookup_column "Inventory Level" (frame df)); [discriminate |].
    injection Hget as <-. reflexivity.
Qed.

Lemma broadcast_within_Exception (now : string) (data : DataFrame)
    (changes : pyval) (w : World) :
  pandas_within_Exception ->
  sinks_within_Exception (self_ w) ->
  run (Exits._broadcast_data now data changes) w
  = run (_broadcast_data now data changes) w.
Proof.
  intros (Hjson & Hdict & Hdumps) (Hredis & Hkafka).
  unfold run, Exits._broadcast_data, _broadcast_data.
  apply try_except_within_Exception.
  unfold bind, get_self, lift, ret, emit.
  destruct w as [self tr]; cbn [self_ trace] in *.
  repeat
    (cbn [self_ trace fst];
     match goal with
     | |- within_Exception (Ok _) => exact I
     | H : within_Exception (Raise ?e) |- within_Exception (Raise ?e) => exact H
     | |- context [socketio_server self] => destruct (socketio_server self)
     | |- context [redis_client self] =>
         destruct (redis_client self) as [client |] eqn:?;
         [specialize (Hredis client) |]
     | |- context [kafka_producer self] =>
         destruct (kafka_producer self) as [producer |] eqn:?;
         [specialize (Hkafka producer) |]
     | |- context [to_json ?d] =>
         let H := fresh "Hj" in pose proof (Hjson d) as H; destruct (to_json d)
     | |- context [to_dict ?d] =>
         let H := fresh "Hd" in pose proof (Hdict d) as H; destruct (to_dict d)
     | |- context [json_dumps ?v] =>
         let H := fresh "Hv" in pose proof (Hdumps v) as H; destruct (json_dumps v)
     | |- context [setex ?c ?k ?t ?p] =>
         let H := fresh "Hs" in
         pose proof (Hredis k t p eq_refl) as H; destruct (setex c k t p)
     | |- context [send ?c ?t ?p] =>
         let H := fresh "Hk" in
         pose proof (Hkafka t p eq_refl) as H; destruct (send c t p)
     end).
Qed.

Lemma handle_within_Exception (env : Env) (w : World) :
  env_within_Exception env ->
  calls_within_Exception (self_ w) ->
  run (Exits._handle_file_change env) w = run (_handle_file_change env) w.
Proof.
  intros (Hread & Hstat) (Hsubs & Hsinks & Hpandas).
  unfold run, Exits._handle_file_change, _handle_file_change.
  match goal with
  | |- Exits.try_except ?m1 ?h w = try_except ?m2 ?h w =>
      assert (Hbody : m1 w = m2 w /\ within_Exception (fst (m2 w)))
  end.
  { destruct (read_csv env) as [df | e].
    2: { unfold bind, lift. split; [reflexivity | exact Hread]. }
    destruct (_validate_columns df) eqn:Hval.
    2: { unfold bind, lift. rewrite Hval. split; [reflexivity | exact I]. }
    destruct (stat_mtime env) as [m | e].
    2: { unfold bind, lift. rewrite Hval. split; [reflexivity | exact Hstat]. }
    pose proof (calculate_changes_within_Exception
                  (set_last_modified m (self_ w)) (now_changes env) df) as Hcalc.
    destruct (_calculate_changes (set_last_modified m (self_ w)) (now_changes env) df)
      as [changes | e] eqn:Hc.
    2: { unfold bind, lift, modify_self, get_self. rewrite Hval.
         cbn [negb self_ trace]. rewrite Hc.
         split; [reflexivity | exact Hcalc]. }
    unfold bind, lift, modify_self, get_self, emit. rewrite Hval.
    cbn [negb self_ trace]. rewrite Hc. cbn [self_ trace].
    change (Exits._notify_subscribers df changes ?w0)
      with (run (Exits._notify_subscribers df changes) w0).
    change (_notify_subscribers df changes ?w0)
      with (run (_notify_subscribers df changes) w0).
    rewrite notify_within_Exception by exact Hsubs.
    rewrite notify_run. cbn [self_ trace subscribers set_last_data set_last_modified].
    change (Exits._broadcast_data ?n ?d ?c ?w0)
      with (run (Exits._broadcast_data n d c) w0).
    rewrite broadcast_within_Exception by assumption.
    match goal with
    | |- context [run (_broadcast_data ?n ?d ?c) ?w0] =>
        destruct (broadcast_run n d c w0) as (evs & Hb & _)
    end.
    unfold run in Hb |- *. rewrite Hb.
    split; reflexivity. }
  destruct Hbody as [Heq Hin].
  rewrite <- try_except_within_Exception by exact Hin.
  unfold Exits.try_except. now rewrite Heq.
Qed.

(** Processing a file changes neither the subscribers nor the sinks. *)
Lemma handle_keeps_calls (env : Env) (w : World) :
  calls_within_Exception (self_ w) ->
  calls_within_Exception (self_ (snd (run (_handle_file_change env) w))).
Proof.
  intros H.
  destruct (handle_outcomes env w)
    as [_ [Hs | [(df & m & _ & _ & _ & Hs) | (df & m & _ & _ & _ & Hs)]]];
    rewrite Hs; exact H.
Qed.

Lemma loop_body_within_Exception (poll_mtime : result Z) (env : Env) (w : World) :
  within_Exception poll_mtime ->
  env_within_Exception env ->
  calls_within_Exception (self_ w) ->
  run (Exits.streaming_loop_body poll_mtime env) w
  = run (streaming_loop_body poll_mtime env) w.
Proof.
  intros Hpoll Henv Hcalls.
  unfold run, Exits.streaming_loop_body, streaming_loop_body.
  match goal with
  | |- Exits.try_except ?m1 ?h w = try_except ?m2 ?h w =>
      assert (Hbody : m1 w = m2 w /\ within_Exception (fst (m2 w)))
  end.
  { destruct poll_mtime as [m | e].
    2: { unfold bind, lift. split; [reflexivity | exact Hpoll]. }
    unfold bind, lift, get_self.
    destruct (file_modified (self_ w) m); [| split; reflexivity].
    change (Exits._handle_file_change env w)
      with (run (Exits._handle_file_change env) w).
    rewrite handle_within_Exception by assumption.
    pose proof (proj1 (handle_outcomes env w)) as Hok.
    unfold run in *.
    destruct (_handle_file_change env w) as [r w1]. cbn [fst] in Hok. subst r.
    split; reflexivity. }
  destruct Hbody as [Heq Hin].
  rewrite <- try_except_within_Exception by exact Hin.
  unfold Exits.try_except. now rewrite Heq.
Qed.

Lemma loop_body_keeps_calls (poll_mtime : result Z) (env : Env) (w : World) :
  calls_within_Exception (self_ w) ->
  calls_within_Exception (self_ (snd (run (streaming_loop_body poll_mtime env) w))).
Proof.
  intros H. rewrite loop_body_run.
  destruct poll_mtime as [m | e]; [| exact H].
  destruct (file_modified (self_ w) m); [| exact H].
  cbn [snd self_]. now apply handle_keeps_calls.
Qed.

Lemma loop_within_Exception (answers : list (result Z * Env)) (w : World) :
  answers_within_Exception answers ->
  calls_within_Exception (self_ w) ->
  run (Exits.streaming_loop answers) w = run (streaming_loop answers) w.
Proof.
  revert w.
  induction answers as [| [poll_mtime env] rest IH]; intros w Hans Hcalls;
    [reflexivity |].
  unfold run. cbn [Exits.streaming_loop streaming_loop].
  unfold bind at 1 4, get_self.
  destruct (is_running (self_ w)); [| reflexivity].
  destruct (Hans poll_mtime env (or_introl eq_refl)) as [Hpoll Henv].
  unfold bind at 1 3.
  change (Exits.streaming_loop_body poll_mtime env w)
    with (run (Exits.streaming_loop_body poll_mtime env) w).
  rewrite loop_body_within_Exception by assumption.
  pose proof (loop_body_keeps_calls poll_mtime env w Hcalls) as Hkeep.
  unfold run in *.
  destruct (streaming_loop_body poll_mtime env w) as [[b | e] w1]; [| reflexivity].
  cbn [snd] in Hkeep.
  unfold bind.
  rewrite (IH w1); [reflexivity | | exact Hkeep].
  intros p e Hin. apply Hans. now right.
Qed.

End WithinException.

Section Watcher.
Context {pandas : Pandas}.

(** An iteration of the loop, with a marker recorded before it: it returns
    whether it signalled; a marker is recorded after it, and when the file
    time read while the file is processed is not before the one polled, that
    marker is not before the one recorded at the start; an iteration that
    signalled polled a marker after the recorded one and, where the table
    passed validation and the file time could be read, recorded that
    reading. *)
Lemma loop_body_marker (poll_mtime : result Z) (env : Env) (w : World) (r : Z) :
  (forall m m', poll_mtime = Ok m -> stat_mtime env = Ok m' -> m <= m') ->
  last_modified (self_ w) = Some r ->
  exists b w1 r',
    run (streaming_loop_body poll_mtime env) w = (Ok b, w1)
    /\ is_running (self_ w1) = is_running (self_ w)
    /\ last_modified (self_ w1) = Some r' /\ r <= r'
    /\ (b = true -> exists m, poll_mtime = Ok m /\ r < m).
Proof.
  intros Hmono Hrec. rewrite loop_body_run.
  destruct poll_mtime as [m | e].
  2: { exists false, {| self_ := self_ w;
                        trace := trace w
                          ++ [Logged "ERROR" ("Error in streaming loop: " ++ str_exn e);
                              Slept 5] |}, r.
       cbn [self_]. repeat split; auto; try lia; try discriminate. }
  destruct (file_modified (self_ w) m) eqn:Hsig.
  2: { exists false, {| self_ := self_ w; trace := trace w ++ [Slept 1] |}, r.
       cbn [self_]. repeat split; auto; try lia; try discriminate. }
  unfold file_modified in Hsig. rewrite Hrec in Hsig. apply Z.ltb_lt in Hsig.
  cbv zeta.
  destruct (handle_outcomes env w)
    as [_ [H | [(df & m' & _ & _ & Hst & H) | (df & m' & _ & _ & Hst & H)]]].
  - eexists true, _, r. split; [reflexivity |]. cbn [self_]. rewrite H.
    repeat split; auto; try lia. intros _. exists m. split; [reflexivity | lia].
  - eexists true, _, m'. split; [reflexivity |]. cbn [self_]. rewrite H.
    specialize (Hmono m m' eq_refl Hst).
    repeat split; auto; try lia. intros _. exists m. split; [reflexivity | lia].
  - eexists true, _, m'. split; [reflexivity |]. cbn [self_]. rewrite H.
    specialize (Hmono m m' eq_refl Hst).
    repeat split; auto; try lia. intros _. exists m. split; [reflexivity | lia].
Qed.

(** The loop over one more pair of answers, while [is_running] holds. *)
Lemma loop_cons_run (poll_mtime : result Z) (env : Env)
    (rest : list (result Z * Env)) (w w1 w2 : World) (b : bool) (bs : list bool) :
  is_running (self_ w) = true ->
  run (streaming_loop_body poll_mtime env) w = (Ok b, w1) ->
  run (streaming_loop rest) w1 = (Ok bs, w2) ->
  run (streaming_loop ((poll_mtime, env) :: rest)) w = (Ok (b :: bs), w2).
Proof.
  unfold run. intros Hrun Hbody Hrest.
  cbn [streaming_loop]. unfold bind, get_self.
  now rewrite Hrun, Hbody, Hrest.
Qed.

Lemma loop_stopped_run (answers : list (result Z * Env)) (w : World) :
  is_running (self_ w) = false ->
  run (streaming_loop answers) w = (Ok [], w).
Proof.
  intros Hrun. unfold run.
  destruct answers as [| [poll_mtime env] rest]; [reflexivity |].
  cbn [streaming_loop]. unfold bind, get_self. now rewrite Hrun.
Qed.

(** Along a run of the loop that starts with a marker recorded, every
    iteration that signals polled a marker after that one. *)
Lemma loop_signals_above (answers : list (result Z * Env)) (w : World) (r : Z) :
  (forall p e m m',
     In (p, e) answers -> p = Ok m -> stat_mtime e = Ok m' -> m <= m') ->
  last_modified (self_ w) = Some r ->
  exists signalled w',
    run (streaming_loop answers) w = (Ok signalled, w')
    /\ forall k p e,
         nth_error answers k = Some (p, e) ->
         nth_error signalled k = Some true ->
         exists m, p = Ok m /\ r < m.
Proof.
  revert w r.
  induction answers as [| [poll_mtime env] rest IH]; intros w r Hmono Hrec.
  - exists [], w. split; [reflexivity |]. intros [| k] p e; discriminate.
  - destruct (is_running (self_ w)) eqn:Hrun.
    2: { exists [], w. split; [now apply loop_stopped_run |].
         intros [| k] p e _; discriminate. }
    destruct (@loop_body_marker poll_mtime env w r) as (b & w1 & r' & Hb & _ & Hr' & Hle & Hsig);
      [intros m m'; apply Hmono; now left | exact Hrec |].
    destruct (IH w1 r') as (bs & w2 & Hbs & Habove);
      [intros p e m m' Hin; apply Hmono; now right | exact Hr' |].
    exists (b :: bs), w2. split; [eapply loop_cons_run; eassumption |].
    intros [| k] p e Hk Hsk; cbn [nth_error] in Hk, Hsk.
    + injection Hk as <- <-. injection Hsk as ->. now apply Hsig.
    + destruct (Habove k p e Hk Hsk) as (m & Hp & Hlt).
      exists m. split; [exact Hp | lia].
Qed.

(** Along a run of the loop, an iteration that signals, meets a table that
    passes validation and reads the file time records that reading, and
    every iteration that signals after it polled a marker after that
    reading. *)
Lemma loop_signals_increase (answers : list (result Z * Env)) (w : World) :
  (forall p e m m',
     In (p, e) answers -> p = Ok m -> stat_mtime e = Ok m' -> m <= m') ->
  exists signalled w',
    run (streaming_loop answers) w = (Ok signalled, w')
    /\ forall k1 k2 m1 e1 p2 e2 df m1',
         (k1 < k2)%nat ->
         nth_error answers k1 = Some (Ok m1, e1) ->
         nth_error answers k2 = Some (p2, e2) ->
         nth_error signalled k1 = Some true ->
         nth_error signalled k2 = Some true ->
         read_csv e1 = Ok df -> _validate_columns df = true ->
         stat_mtime e1 = Ok m1' ->
         exists m2, p2 = Ok m2 /\ m1 <= m1' /\ m1' < m2.
Proof.
  revert w.
  induction answers as [| [poll_mtime env] rest IH]; intros w Hmono.
  - exists [], w. split; [reflexivity |].
    intros [| k1] k2 m1 e1 p2 e2 df m1' _; discriminate.
  - destruct (is_running (self_ w)) eqn:Hrun.
    2: { exists [], w. split; [now apply loop_stopped_run |].
         intros [| k1] k2 m1 e1 p2 e2 df m1' _ _ _; discriminate. }
    assert (Hbody : exists b w1, run (streaming_loop_body poll_mtime env) w = (Ok b, w1)).
    { rewrite loop_body_run. destruct poll_mtime as [m | e]; [| eauto].
      destruct (file_modified (self_ w) m); eauto. }
    destruct Hbody as (b & w1 & Hb).
    destruct (IH w1) as (bs & w2 & Hbs & Hincr);
      [intros p e m m' Hin; apply Hmono; now right |].
    exists (b :: bs), w2. split; [eapply loop_cons_run; eassumption |].
    intros k1 k2 m1 e1 p2 e2 df m1' Hlt Hk1 Hk2 Hs1 Hs2 Hread Hval Hstat.
    destruct k2 as [| k2]; [lia |]. cbn [nth_error] in Hk2, Hs2.
    destruct k1 as [| k1]; cbn [nth_error] in Hk1, Hs1.
    + injection Hk1 as -> ->. injection Hs1 as ->.
      assert (Hle : m1 <= m1') by (apply (Hmono (Ok m1) e1); auto; now left).
      assert (Hrec : last_modified (self_ w1) = Some m1').
      { rewrite loop_body_run in Hb.
        destruct (file_modified (self_ w) m1); [| discriminate].
        cbv zeta in Hb. injection Hb as <-. cbn [self_].
        now apply handle_records_marker with (df := df). }
      destruct (@loop_signals_above rest w1 m1') as (bs' & w2' & Hbs' & Habove);
        [intros p e m m' Hin; apply Hmono; now right | exact Hrec |].
      rewrite Hbs in Hbs'. injection Hbs' as <- <-.
      destruct (Habove k2 p2 e2 Hk2 Hs2) as (m2 & Hp2 & Hgt).
      exists m2. repeat split; auto.
    + apply (Hincr k1 k2 m1 e1 p2 e2 df m1'); auto. lia.
Qed.

(** C7, as the code has it, where nothing raised while the loop runs is
    outside class Exception. An iteration of the streaming loop signals a
    change exactly when the modification time can be read and either no
    marker has been recorded yet or the one read is strictly greater than
    the recorded one; when it cannot be read the iteration logs an error,
    sleeps and signals nothing, without raising. The recorded marker is not
    the one polled: an iteration that signals, meets a table that passes
    validation and can read the modification time again records that second
    reading, and the test of the next poll fails for the marker polled when
    that marker is not after the reading; a parse failure, a schema mismatch
    or a modification time that cannot be read again leaves the manager as
    it was, so the same marker signals again at the next poll. Along a run
    of the loop, with nothing else processing the file in between, in which
    the second reading of an iteration is never before its polled marker,
    every marker that signals is after the marker recorded when the run
    started, and after a marker has signalled with a table that passed
    validation and a second reading, every marker that signals later in the
    run is after that marker and that reading. *)
Theorem C7_poll_compares_with_recorded_marker (poll_mtime : result Z)
    (env : Env) (rest : list (result Z * Env)) (w : World) :
  answers_within_Exception ((poll_mtime, env) :: rest) ->
  calls_within_Exception (self_ w) ->
  let answers := (poll_mtime, env) :: rest in
  let w' := after (Exits.streaming_loop_body poll_mtime env) w in
  fst (run (Exits.streaming_loop_body poll_mtime env) w)
  = Ok match poll_mtime with
       | Ok current_modified =>
           match last_modified (self_ w) with
           | None => true
           | Some recorded => recorded <? current_modified
           end
       | Raise _ => false
       end
  /\ match poll_mtime with
     | Raise e =>
         w' = {| self_ := self_ w;
                 trace := trace w
                          ++ [Logged "ERROR" ("Error in streaming loop: " ++ str_exn e);
                              Slept 5] |}
     | Ok current_modified =>
         (forall df m',
            read_csv env = Ok df -> _validate_columns df = true ->
            stat_mtime env = Ok m' ->
            (file_modified (self_ w) current_modified = true ->
             last_modified (self_ w') = Some m')
            /\ (current_modified <= m' ->
                file_modified (self_ w') current_modified = false))
         /\ ((exists e, read_csv env = Raise e)
             \/ (exists df, read_csv env = Ok df /\ _validate_columns df = false)
             \/ (exists df e, read_csv env = Ok df /\ _validate_columns df = true
                              /\ stat_mtime env = Raise e) ->
             self_ w' = self_ w
             /\ file_modified (self_ w') current_modified
                = file_modified (self_ w) current_modified)
     end
  /\ ((forall p e m m',
         In (p, e) answers -> p = Ok m -> stat_mtime e = Ok m' -> m <= m') ->
      exists signalled,
        fst (run (Exits.streaming_loop answers) w) = Ok signalled
        /\ (forall recorded k p e,
              last_modified (self_ w) = Some recorded ->
              nth_error answers k = Some (p, e) ->
              nth_error signalled k = Some true ->
              exists m, p = Ok m /\ recorded < m)
        /\ (forall k1 k2 m1 e1 p2 e2 df m1',
              (k1 < k2)%nat ->
              nth_error answers k1 = Some (Ok m1, e1) ->
              nth_error answers k2 = Some (p2, e2) ->
              nth_error signalled k1 = Some true ->
              nth_error signalled k2 = Some true ->
              read_csv e1 = Ok df -> _validate_columns df = true ->
              stat_mtime e1 = Ok m1' ->
              exists m2, p2 = Ok m2 /\ m1 <= m1' /\ m1' < m2)).
Proof.
  intros Hans Hcalls answers w'.
  destruct (Hans poll_mtime env (or_introl eq_refl)) as [Hpoll Henv].
  unfold w', after.
  rewrite loop_body_within_Exception by assumption. rewrite loop_body_run.
  split; [| split].
  - destruct poll_mtime as [m | e]; [| reflexivity].
    unfold file_modified.
    destruct (last_modified (self_ w)) as [recorded |]; [| reflexivity].
    destruct (recorded <? m); reflexivity.
  - destruct poll_mtime as [m | e]; [| reflexivity].
    destruct (file_modified (self_ w) m) eqn:Hsig; cbn [snd self_].
    + split.
      * intros df m' Hread Hval Hstat.
        pose proof (handle_records_marker env w Hread Hval Hstat) as Hrec.
        split; [intros _; exact Hrec |].
        intros Hle. unfold file_modified. rewrite Hrec.
        apply Z.ltb_ge. exact Hle.
      * intros Hfail.
        assert (Hsame : self_ (snd (run (_handle_file_change env) w)) = self_ w).
        { destruct Hfail as [[e Hread] | [(df & Hread & Hval) | (df & e & Hread & Hval & Hstat)]].
          - now rewrite (handle_parse_error env w Hread).
          - now rewrite (handle_schema_mismatch env w Hread Hval).
          - now rewrite (handle_stat_error env w Hread Hval Hstat). }
        rewrite Hsame. split; [reflexivity | exact Hsig].
    + split.
      * intros df m' _ _ _. split; [discriminate | intros _; exact Hsig].
      * intros _. split; [reflexivity | exact Hsig].
  - intros Hmono.
    rewrite loop_within_Exception by assumption.
    destruct (loop_signals_increase answers w Hmono) as (signalled & w2 & Hrun & Hincr).
    exists signalled. rewrite Hrun. split; [reflexivity |]. split; [| exact Hincr].
    intros recorded k p e Hrec Hk Hsk.
    destruct (loop_signals_above answers w Hmono Hrec) as (bs & w3 & Hrun' & Habove).
    rewrite Hrun in Hrun'. injection Hrun' as <- <-.
    now apply (Habove k p e).
Qed.

(** C9, as the code has it: with no snapshot committed,
    [get_data_summary] returns the record [{"error": "No data available"}];
    with a snapshot it returns, unless taking the bounds of the Date column
    raises, a record with the keys timestamp, total_rows, columns and
    date_range, followed by numerical_summary exactly when the snapshot has
    a numeric column. *)
Theorem C9_summary_shape (self : CSVStreamingManager) (now : string) :
  match get_latest_data self with
  | None =>
      get_data_summary self now
      = Ok (PyDict [ ("error", PyStr "No data available") ])
  | Some df =>
      match date_bound series_min df, date_bound series_max df with
      | Ok start, Ok end_ =>
          exists d,
            get_data_summary self now = Ok d
            /\ dict_keys d
               = ([ "timestamp"; "total_rows"; "columns"; "date_range" ]
                  ++ (if (0 <? List.length (numeric_frame df))%nat
                      then [ "numerical_summary" ] else []))%list
            /\ dict_get "timestamp" d = Some (PyStr now)
            /\ dict_get "total_rows" d = Some (PyInt (Z.of_nat (len df)))
            /\ dict_get "columns" d = Some (PyList (map PyStr (columns df)))
            /\ dict_get "date_range" d
               = Some (PyDict [ ("start", start); ("end", end_) ])
            /\ has_key "numerical_summary" d
               = (0 <? List.length (numeric_frame df))%nat
      | Raise e, _ => get_data_summary self now = Raise e
      | Ok _, Raise e => get_data_summary self now = Raise e
      end
  end.
Proof.
  unfold get_latest_data, get_data_summary.
  destruct (last_data self) as [df |]; [| reflexivity].
  destruct (date_bound series_min df) as [start | e]; [| reflexivity].
  destruct (date_bound series_max df) as [end_ | e]; [| reflexivity].
  destruct (0 <? List.length (numeric_frame df))%nat;
    eexists; (split; [reflexivity |]); repeat split; reflexivity.
Qed.

End Watcher.

(** ** The properties at sample data *)

(** C3 at a source without the Price column, after a first commit. *)
Lemma C3_witness_missing_price :
  let env := file_with (drop_column "Price" (inventory_table [4; 8])) 200 in
  let w := after (_handle_file_change (pandas := stub_pandas)
                    (file_with (inventory_table [4]) 100))
                 (after (subscribe probe) fresh) in
  let w' := after (_handle_file_change (pandas := stub_pandas) env) w in
  fst (run (_handle_file_change (pandas := stub_pandas) env) w) = Ok tt
  /\ self_ w' = self_ w
  /\ last_data (self_ w') = last_data (self_ w)
  /\ last_modified (self_ w') = last_modified (self_ w)
  /\ (exists level msg, new_events w w' = [Logged level msg])
  /\ calls_of (new_events w w') = [].
Proof.
  apply (C3_failed_attempt_changes_nothing (pandas := stub_pandas)).
  right. exists (drop_column "Price" (inventory_table [4; 8])), "Price".
  split; [reflexivity | split; [| reflexivity]].
  cbn. tauto.
Defined.

(** C1 at two one-row tables, the first out of stock, the second at 50. *)
Lemma C1_witness_two_commits :
  let w := after (subscribe probe) fresh in
  let w1 := after (_handle_file_change (pandas := stub_pandas)
                     (file_with (inventory_table [0]) 100)) w in
  let w2 := after (_handle_file_change (pandas := stub_pandas)
                     (file_with (inventory_table [50]) 200)) w1 in
  calls_of (new_events w w1)
  = [ (7%nat, inventory_table [0],
       PyDict [ ("type", PyStr "initial_load"); ("rows", PyInt 1) ]) ]
  /\ calls_of (new_events w1 w2)
     = [ (7%nat, inventory_table [50],
          PyDict
            [ ("type", PyStr "update");
              ("timestamp", PyStr "2024-05-01T10:00:00");
              ("total_rows", PyInt 1);
              ("changes",
               PyDict
                 [ ("inventory_changes",
                    PyDict [ ("low_stock", PyInt 0);
                             ("out_of_stock", PyInt 0) ]) ]) ]) ].
Proof.
  intros w w1 w2.
  pose proof (@C1_update_counts_rows_of_new_table stub_pandas w
                (file_with (inventory_table [0]) 100)
                (file_with (inventory_table [50]) 200)
                (inventory_table [0]) (inventory_table [50]) 100 200
                (Int64 [50]) [false]
                eq_refl eq_refl eq_refl eq_refl eq_refl eq_refl eq_refl
                eq_refl eq_refl) as H.
  cbv zeta in H. destruct H as (_ & H1 & _ & _ & H2 & _).
  split; [exact H1 | exact H2].
Defined.

(** C1 fails on the code: after the commit of a table with one
    out-of-stock row, the commit of a table with one well-stocked row hands
    the subscriber indicators equal to 0, the counts of the new table; the
    counts of the table committed before are 1. *)
Lemma C1_indicators_are_those_of_new_table :
  let S1 := inventory_table [0] in
  let S2 := inventory_table [50] in
  let w := after (subscribe probe) fresh in
  let w1 := after (_handle_file_change (pandas := stub_pandas) (file_with S1 100)) w in
  let w2 := after (_handle_file_change (pandas := stub_pandas) (file_with S2 200)) w1 in
  let handed :=
    map (fun c => (indicator "low_stock" (snd c), indicator "out_of_stock" (snd c)))
        (calls_of (new_events w1 w2)) in
  handed = [ (Some 0, Some 0) ]
  /\ (low_stock_of S1, out_of_stock_of S1) = (Some 1, Some 1)
  /\ (low_stock_of S2, out_of_stock_of S2) = (Some 0, Some 0)
  /\ handed <> [ (low_stock_of S1, out_of_stock_of S1) ].
Proof.
  cbv zeta. repeat split; try (vm_compute; reflexivity).
  vm_compute. discriminate.
Qed.

(** C2 at the table of the claim, committed first. *)
Lemma C2_witness_first_commit :
  let five := inventory_table [0; 5; 50; 0; 20] in
  let w := after (subscribe probe) fresh in
  let delta := PyDict [ ("type", PyStr "initial_load"); ("rows", PyInt 5) ] in
  _calculate_changes (self_ w) "2024-05-01T10:00:00" five = Ok delta
  /\ calls_of (new_events w (after (_handle_file_change (pandas := stub_pandas)
                                      (file_with five 100)) w))
     = [ (7%nat, five, delta) ]
  /\ indicator "low_stock" delta = None
  /\ indicator "out_of_stock" delta = None
  /\ low_stock_of five = Some 3
  /\ out_of_stock_of five = Some 2.
Proof.
  intros five w delta.
  assert (Hreach : reachable (pandas := stub_pandas) w).
  { apply (reach_step (pandas := stub_pandas) (w := fresh)).
    - apply (reach_init (pandas := stub_pandas)).
    - apply (step_subscribe (pandas := stub_pandas) probe fresh). }
  exact (@C2_first_commit_carries_no_indicator stub_pandas w
           (file_with five 100) five 100 Hreach
           eq_refl eq_refl eq_refl eq_refl eq_refl).
Defined.

(** C2 fails on the code: the first commit of the table with inventory
    levels 0, 5, 50, 0, 20 hands the subscriber a summary without the
    low-stock and out-of-stock indicators. *)
Lemma C2_first_commit_has_no_indicators :
  let five := inventory_table [0; 5; 50; 0; 20] in
  let w := after (subscribe probe) fresh in
  let w1 := after (_handle_file_change (pandas := stub_pandas) (file_with five 100)) w in
  map snd (calls_of (new_events w w1))
  = [ PyDict [ ("type", PyStr "initial_load"); ("rows", PyInt 5) ] ]
  /\ map (fun c => (indicator "low_stock" (snd c), indicator "out_of_stock" (snd c)))
         (calls_of (new_events w w1))
     = [ (None, None) ]
  /\ map (fun c => (indicator "low_stock" (snd c), indicator "out_of_stock" (snd c)))
         (calls_of (new_events w w1))
     <> [ (Some 3, Some 2) ].
Proof.
  cbv zeta. repeat split; try (vm_compute; reflexivity).
  vm_compute. discriminate.
Qed.

(** C4 at a registry of a callback that raises RuntimeError and one that
    returns. *)
Lemma C4_witness_one_raises_one_returns :
  let w := after (subscribe probe) (after (subscribe failing) fresh) in
  let data := inventory_table [3] in
  let w1 := after (Exits._notify_subscribers data PyNone) w in
  fst (run (Exits._notify_subscribers data PyNone) w) = Ok tt
  /\ calls_of (new_events w w1) = [ (1%nat, data, PyNone); (7%nat, data, PyNone) ]
  /\ logged_in "ERROR" (new_events w w1)
     = map (fun e => "Error in subscriber callback: " ++ str_exn e)
           (raised_in (new_events w w1))
  /\ subscribers (self_ w1) = subscribers (self_ w).
Proof.
  intros w data w1.
  assert (Hsubs : subscribers_within_Exception (subscribers (self_ w))).
  { intros c tr d ch Hin. cbn in Hin.
    destruct Hin as [<- | [<- | []]]; cbn; [reflexivity | exact I]. }
  pose proof (@C4_raising_callback_is_isolated w data PyNone Hsubs) as H.
  cbv zeta in H. destruct H as (H1 & _ & H3 & H4 & H5 & _).
  split; [exact H1 | split; [exact H3 | split; [exact H4 | exact H5]]].
Defined.

(** C4 fails on the code: the first callback calls [sys.exit(0)]. The
    SystemExit it raises is not of class Exception: it is neither caught nor
    logged, it leaves the dispatch, and the callback registered after it is
    not called. *)
Lemma C4_exiting_callback_ends_dispatch :
  let w := after (subscribe probe) (after (subscribe exiting) fresh) in
  let data := inventory_table [3] in
  let evs := new_events w (after (Exits._notify_subscribers data PyNone) w) in
  fst (run (Exits._notify_subscribers data PyNone) w)
  = Raise (Exception "SystemExit" "0")
  /\ calls_of evs = [ (cb_id exiting, data, PyNone) ]
  /\ logged_in "ERROR" evs = []
  /\ registered probe (subscribers (self_ w)) = true
  /\ calls_to (cb_id probe) evs = 0%nat
  /\ fst (run (Exits._notify_subscribers data PyNone) w) <> Ok tt.
Proof.
  cbv zeta. repeat split; try (vm_compute; reflexivity).
  vm_compute. discriminate.
Qed.

(** C5 fails on the code: the callback [failing] raises during the
    dispatch, an error is logged, and it is still registered afterwards. *)
Lemma C5_raising_callback_still_registered :
  let w := after (subscribe failing) fresh in
  let w1 := after (_notify_subscribers (inventory_table [3]) PyNone) w in
  raised_in (new_events w w1) = [Exception "RuntimeError" "boom"]
  /\ registered failing (subscribers (self_ w1)) = true
  /\ registered failing (subscribers (self_ w1)) <> false.
Proof.
  cbv zeta. split; [| split].
  - rewrite notify_new_events. reflexivity.
  - reflexivity.
  - discriminate.
Qed.


(** C7 at a running manager with a raising subscriber: a valid table at
    marker 5 is signalled, marker 5 is recorded and signals no more; a table
    without the Price column at marker 9 leaves the manager as it was; and
    along five polls the markers that signal after a valid load go up. *)
Lemma C7_witness_marker_five :
  let first := file_with (inventory_table [0; 5; 50; 0; 20]) 5 in
  let bad := file_with (drop_column "Price" (inventory_table [4])) 9 in
  let second := file_with (inventory_table [4]) 9 in
  let w := after (start_monitoring true true) (after (subscribe failing) fresh) in
  let answers :=
    [ (Ok 5, first); (Ok 5, first); (Ok 9, bad); (Ok 9, second); (Ok 9, second) ] in
  let w' := after (Exits.streaming_loop_body (pandas := stub_pandas) (Ok 5) first) w in
  fst (run (Exits.streaming_loop_body (pandas := stub_pandas) (Ok 5) first) w)
  = Ok true
  /\ last_modified (self_ w') = Some 5
  /\ file_modified (self_ w') 5 = false
  /\ self_ (after (Exits.streaming_loop_body (pandas := stub_pandas) (Ok 9) bad) w)
     = self_ w
  /\ exists signalled,
       fst (run (Exits.streaming_loop (pandas := stub_pandas) answers) w)
       = Ok signalled
       /\ (forall k1 k2 m1 e1 p2 e2 df m1',
             (k1 < k2)%nat ->
             nth_error answers k1 = Some (Ok m1, e1) ->
             nth_error answers k2 = Some (p2, e2) ->
             nth_error signalled k1 = Some true ->
             nth_error signalled k2 = Some true ->
             read_csv e1 = Ok df -> _validate_columns df = true ->
             stat_mtime e1 = Ok m1' ->
             exists m2, p2 = Ok m2 /\ m1 <= m1' /\ m1' < m2).
Proof.
  intros first bad second w answers w'.
  assert (Hcalls : calls_within_Exception (pandas := stub_pandas) (self_ w)).
  { split; [| split].
    - intros c tr d ch Hin. cbn in Hin. destruct Hin as [<- | []]. reflexivity.
    - split; intros;
        match goal with H : _ = Some _ |- _ => vm_compute in H; discriminate end.
    - repeat split. }
  assert (Hans : answers_within_Exception answers).
  { intros p e Hin.
    repeat (destruct Hin as [Hin | Hin];
            [injection Hin as <- <-; repeat split |]).
    destruct Hin. }
  assert (Hbad : answers_within_Exception [ (Ok 9, bad) ]).
  { intros p e [Hin | []]. injection Hin as <- <-. repeat split. }
  assert (Hmono : forall p e m m',
            In (p, e) answers -> p = Ok m -> stat_mtime e = Ok m' -> m <= m').
  { intros p e m m' Hin Hp Hs.
    repeat (destruct Hin as [Hin | Hin];
            [injection Hin as <- <-; injection Hp as <-; injection Hs as <-; lia |]).
    destruct Hin. }
  pose proof (@C7_poll_compares_with_recorded_marker stub_pandas (Ok 5) first
                (tl answers) w Hans Hcalls) as H.
  pose proof (@C7_poll_compares_with_recorded_marker stub_pandas (Ok 9) bad
                [] w Hbad Hcalls) as H9.
  cbv zeta in H, H9.
  destruct H as (Hsig & (Hvalid & _) & Hloop).
  destruct H9 as (_ & (_ & Hretry) & _).
  destruct (Hvalid (inventory_table [0; 5; 50; 0; 20]) 5 eq_refl eq_refl eq_refl)
    as (Hrec & Hsettled).
  split; [exact Hsig |].
  split; [exact (Hrec eq_refl) |].
  split; [apply Hsettled; lia |].
  split.
  - refine (proj1 (Hretry (or_intror (or_introl
             (ex_intro _ (drop_column "Price" (inventory_table [4]))
                (conj eq_refl eq_refl)))))).
  - destruct (Hloop Hmono) as (signalled & Hrun & _ & Hincr).
    exists signalled. split; [exact Hrun | exact Hincr].
Defined.

(** C7 fails on the code: a valid file at marker 5 is loaded, then the
    file is rewritten without the Price column and carries marker 9; two
    polls in a row signal a change for that same marker 9, the second one
    although 9 is not greater than the marker signalled last. A valid file
    does the same when the modification time read while it is processed is
    before the one polled: polled at 9 and read at 5 when processed, it is
    signalled at marker 9 by two polls in a row. *)
Lemma C7_same_marker_signalled_twice :
  let good := file_with (inventory_table [4]) 5 in
  let bad := file_with (drop_column "Price" (inventory_table [4])) 9 in
  let polls := [ (Ok 5, good); (Ok 9, bad); (Ok 9, bad) ] in
  let signalled :=
    fst (run (start_monitoring true true ;;
              Exits.streaming_loop (pandas := stub_pandas) polls) fresh) in
  signalled = Ok [ true; true; true ]
  /\ signalled <> Ok [ true; true; false ]
  /\ fst (run (start_monitoring true true ;;
               Exits.streaming_loop (pandas := stub_pandas)
                 [ (Ok 9, good); (Ok 9, good) ]) fresh)
     = Ok [ true; true ].
Proof.
  cbv zeta. split; [vm_compute; reflexivity |].
  split; [vm_compute; discriminate | vm_compute; reflexivity].
Qed.

(** C8 after a first commit followed by the commit of a header-only
    file. *)
Lemma C8_witness_after_two_commits :
  let old := inventory_table [4] in
  let w := after (_handle_file_change (pandas := stub_pandas) (file_with old 100)) fresh in
  let w' := after (_handle_file_change (pandas := stub_pandas) (file_with header_only 200)) w in
  exists evs,
    trace w' = (trace w ++ evs)%list
    /\ Forall (fun df => _validate_columns df = true) (stored_in evs)
    /\ get_latest_data (self_ w') = Some (last (stored_in evs) old).
Proof.
  intros old w w'.
  apply (@C8_accessor_returns_whole_snapshot stub_pandas w w' old eq_refl).
  apply (steps_more (pandas := stub_pandas) (w1 := w)).
  - apply (steps_refl (pandas := stub_pandas)).
  - apply (step_on_modified (pandas := stub_pandas) (file_with header_only 200) w).
Defined.

(** C8 fails on the code: after a successful commit, a file that holds the
    header line only is committed too, and the accessor then returns a
    snapshot without rows. *)
Lemma C8_header_only_file_is_committed :
  let w1 := after (_handle_file_change (pandas := stub_pandas)
                     (file_with (inventory_table [4]) 100)) fresh in
  let w2 := after (_handle_file_change (pandas := stub_pandas)
                     (file_with header_only 200)) w1 in
  get_latest_data (self_ w1) = Some (inventory_table [4])
  /\ get_latest_data (self_ w2) = Some header_only
  /\ option_map len (get_latest_data (self_ w2)) = Some 0%nat
  /\ stored_in (new_events w1 w2) = [ header_only ]
  /\ logged_in "INFO" (new_events w1 w2) = [ "Processed CSV update with 0 rows" ].
Proof.
  cbv zeta. repeat split; vm_compute; reflexivity.
Qed.

(** C9 fails on the code: before any commit the summary is the error
    record, which has none of the five fields. *)
Lemma C9_summary_without_data_is_error_record :
  let summary := get_data_summary (pandas := stub_pandas) (self_ fresh) "2024-05-01T10:00:00" in
  summary = Ok (PyDict [ ("error", PyStr "No data available") ])
  /\ match summary with
     | Ok d => map (fun k => has_key k d)
                   [ "timestamp"; "total_rows"; "columns"; "date_range";
                     "numerical_summary" ]
     | Raise _ => []
     end = [ false; false; false; false; false ].
Proof.
  cbv zeta. split; vm_compute; reflexivity.
Qed.

(** C10 at the state reached by a subscription and two commits. *)
Lemma C10_witness_after_two_commits :
  let w := after (_handle_file_change (pandas := stub_pandas)
                    (file_with (inventory_table [0; 5; 50; 0; 20]) 200))
                 (after (_handle_file_change (pandas := stub_pandas)
                           (file_with (inventory_table [4]) 100))
                        (after (subscribe probe) fresh)) in
  List.length expected_columns = 15%nat
  /\ match get_latest_data (self_ w) with
     | None => True
     | Some df =>
         _validate_columns df = true
         /\ forall c, In c expected_columns -> In c (columns df)
     end.
Proof.
  intros w.
  apply (@C10_stored_snapshot_has_required_columns stub_pandas w).
  repeat first
    [ apply (reach_init (pandas := stub_pandas))
    | eapply (reach_step (pandas := stub_pandas));
      [| first [ apply (step_on_modified (pandas := stub_pandas))
               | apply (step_subscribe (pandas := stub_pandas)) ] ] ].
Defined.

(** ** Further properties of the registry *)





Lemma remove_first_keeps_others (cb : Callback) (l : list Callback) :
  filter (fun c => negb (same_callback cb c)) (remove_first cb l)
  = filter (fun c => negb (same_callback cb c)) l.
Proof.
  induction l as [| c rest IH]; [reflexivity |].
  cbn [remove_first filter].
  destruct (same_callback cb c) eqn:Hsame; cbn [negb].
  - reflexivity.
  - cbn [filter]. rewrite Hsame. cbn [negb]. now rewrite IH.
Qed.

Lemma remove_first_length (cb : Callback) (l : list Callback) :
  List.length (remove_first cb l)
  = if registered cb l then Nat.pred (List.length l) else List.length l.
Proof.
  unfold registered.
  induction l as [| c rest IH]; [reflexivity |].
  cbn [remove_first existsb].
  destruct (same_callback cb c); cbn [orb List.length]; [reflexivity |].
  rewrite IH. destruct (existsb (same_callback cb) rest) eqn:Hreg; [| reflexivity].
  destruct rest; [discriminate Hreg | reflexivity].
Qed.

Lemma new_events_same (w : World) : new_events w w = [].
Proof.
  unfold new_events. apply skipn_all.
Qed.

(** X2: [unsubscribe] never raises. If the callback is not registered it
    does nothing at all, not even log. Otherwise it removes one entry, logs
    the new size of the registry, and leaves the other callbacks in the
    registry in the order they had. *)
Theorem X2_unsubscribe_touches_one_entry (cb : Callback) (w : World) :
  let before := subscribers (self_ w) in
  let w' := after (unsubscribe cb) w in
  fst (run (unsubscribe cb) w) = Ok tt
  /\ filter (fun c => negb (same_callback cb c)) (subscribers (self_ w'))
     = filter (fun c => negb (same_callback cb c)) before
  /\ List.length (subscribers (self_ w'))
     = (if registered cb before then Nat.pred (List.length before)
        else List.length before)
  /\ (if registered cb before
      then new_events w w'
           = [ Logged "INFO" ("Removed subscriber. Total subscribers: "
                              ++ str_nat (Nat.pred (List.length before))) ]
      else w' = w).
Proof.
  intros before w'.
  assert (Hsubs : subscribers (self_ w') = remove_first cb before)
    by apply unsubscribe_subscribers.
  repeat split.
  - unfold run, unsubscribe, bind, get_self.
    destruct (registered cb (subscribers (self_ w))); reflexivity.
  - rewrite Hsubs. apply remove_first_keeps_others.
  - rewrite Hsubs. apply remove_first_length.
  - pose proof (remove_first_length cb before) as Hlen.
    unfold w', after, run, unsubscribe, bind, get_self. fold before.
    destruct (registered cb before) eqn:Hreg.
    + unfold modify_self, logger_info, emit. cbn [snd self_ trace subscribers set_subscribers].
      rewrite new_events_app, Hlen. reflexivity.
    + reflexivity.
Qed.

(** ** Further properties of validation and of the change summary *)

Lemma has_column_In (c : string) (df : DataFrame) :
  has_column c df = true <-> In c (columns df).
Proof.
  unfold has_column. rewrite existsb_exists. split.
  - intros (x & Hx & Heq). apply String.eqb_eq in Heq. now subst x.
  - intros Hin. exists c. split; [exact Hin | apply String.eqb_refl].
Qed.

(** X3: validation looks at the set of column names only: a table whose
    column names include those of a table that passes validation passes
    too, so additional columns and the order of the columns play no role. *)
Theorem X3_validation_accepts_supersets (df df' : DataFrame) :
  (forall c, In c (columns df) -> In c (columns df')) ->
  _validate_columns df = true ->
  _validate_columns df' = true.
Proof.
  intros Hincl Hval. unfold _validate_columns in *.
  rewrite forallb_forall in *. intros c Hc.
  apply has_column_In, Hincl, has_column_In. auto.
Qed.

Lemma expected_columns_NoDup : NoDup expected_columns.
Proof.
  unfold expected_columns.
  repeat (constructor;
          [ cbn; intros H;
            repeat (destruct H as [H | H]; [discriminate H |]); exact H | ]).
  constructor.
Qed.

(** X4: a table with fewer than fifteen columns never passes validation,
    whatever its columns are called. *)
Theorem X4_fewer_than_fifteen_columns_rejected (df : DataFrame) :
  (List.length (columns df) < 15)%nat ->
  _validate_columns df = false.
Proof.
  intros Hlen.
  destruct (_validate_columns df) eqn:Hval; [| reflexivity].
  exfalso.
  assert (Hincl : incl expected_columns (columns df)).
  { intros c Hc. now apply validate_columns_In. }
  pose proof (NoDup_incl_length expected_columns_NoDup Hincl) as Hle.
  change (List.length expected_columns) with 15%nat in Hle. lia.
Qed.

Lemma len_masked_le (A : Type) (f g : A -> bool) (xs : list A) :
  (forall x, g x = true -> f x = true) ->
  (len_masked (map g xs) <= len_masked (map f xs))%nat.
Proof.
  intros Himp. unfold len_masked.
  induction xs as [| x xs IH]; cbn [map filter]; [lia |].
  destruct (g x) eqn:Hg.
  - rewrite (Himp x Hg). cbn [List.length]. lia.
  - destruct (f x); cbn [List.length]; lia.
Qed.

Lemma len_masked_bound (mask : list bool) :
  (len_masked mask <= List.length mask)%nat.
Proof.
  unfold len_masked. apply filter_length_le.
Qed.

Lemma float_zero_is_low (x : float64) :
  float_eq x 0 = true -> float_lt x 10 = true.
Proof.
  destruct x as [| | | q]; cbn; try discriminate.
  intros Heq. apply Qeq_bool_iff in Heq.
  destruct (Qle_bool (inject_Z 10) q) eqn:Hle; [| reflexivity].
  apply Qle_bool_iff in Hle.
  unfold Qeq, Qle in *. cbn in *. lia.
Qed.

(** The cells equal to 0 are among the cells below 10. *)
Lemma series_zero_within_low (s : Series) (low : list bool) :
  series_lt s 10 = Ok low ->
  (len_masked (series_eq s 0) <= len_masked low <= series_len s)%nat.
Proof.
  destruct s as [xs | xs | xs | xs]; cbn [series_lt series_eq series_len].
  - intros H; injection H as <-. split.
    + apply len_masked_le. intros x Hx. apply Z.eqb_eq in Hx. subst x. reflexivity.
    + rewrite <- (length_map (fun x => x <? 10) xs). apply len_masked_bound.
  - intros H; injection H as <-. split.
    + apply len_masked_le. apply float_zero_is_low.
    + rewrite <- (length_map (fun x => float_lt x 10) xs). apply len_masked_bound.
  - intros H; injection H as <-. split.
    + apply len_masked_le. intros [] Hx; reflexivity.
    + rewrite <- (length_map (fun b => Z_of_bool b <? 10) xs). apply len_masked_bound.
  - destruct (existsb _ xs); [discriminate |].
    intros H; injection H as <-. split.
    + apply len_masked_le. auto.
    + rewrite <- (length_map (fun _ : option string => false) xs).
      apply len_masked_bound.
Qed.

(** X5: whenever the inventory indicators can be computed, the
    out-of-stock count is at most the low-stock count, which is at most the
    number of cells of the inventory column: a row counted as out of stock
    is always counted as low on stock too. *)
Theorem X5_out_of_stock_within_low_stock (df : DataFrame) (ic : pyval) :
  inventory_changes df = Ok ic ->
  exists (s : Series) (low_stock out_of_stock : Z),
    getitem df "Inventory Level" = Ok s
    /\ ic = PyDict [ ("low_stock", PyInt low_stock);
                     ("out_of_stock", PyInt out_of_stock) ]
    /\ 0 <= out_of_stock <= low_stock
    /\ low_stock <= Z.of_nat (series_len s).
Proof.
  unfold inventory_changes. intros H.
  destruct (getitem df "Inventory Level") as [s | e]; [| discriminate].
  destruct (series_lt s 10) as [low | e] eqn:Hlt; [| discriminate].
  injection H as <-.
  pose proof (series_zero_within_low s Hlt) as [H1 H2].
  exists s, (Z.of_nat (len_masked low)), (Z.of_nat (len_masked (series_eq s 0))).
  repeat split; try reflexivity; lia.
Qed.

(** ** Further properties of the file-change pipeline *)

Lemma pushes_in_app (l1 l2 : list Event) :
  pushes_in (l1 ++ l2) = (pushes_in l1 ++ pushes_in l2)%list.
Proof.
  induction l1 as [| ev l1 IH]; simpl; auto.
  destruct ev; simpl; auto; now rewrite IH.
Qed.

Section PipelineEdges.
Context {pandas : Pandas}.

(** X6: when a snapshot is held and the file holds a table that passes
    validation but whose inventory column holds text, the attempt records
    the file's modification time and then fails on the comparison with 10:
    the method returns normally, the snapshot held is kept, no subscriber is
    called, one error is logged, and the streaming loop does not try that
    version of the file again. *)
Theorem X6_text_inventory_update_moves_marker_only (env : Env) (w : World)
    (old df : DataFrame) (m : Z) (cells : list (option string)) :
  last_data (self_ w) = Some old ->
  _validate_columns old = true ->
  read_csv env = Ok df ->
  _validate_columns df = true ->
  stat_mtime env = Ok m ->
  getitem df "Inventory Level" = Ok (Object cells) ->
  existsb is_text cells = true ->
  let w' := after (_handle_file_change env) w in
  fst (run (_handle_file_change env) w) = Ok tt
  /\ get_latest_data (self_ w') = Some old
  /\ last_modified (self_ w') = Some m
  /\ new_events w w'
     = [ Logged "ERROR"
           ("Error processing CSV update: "
            ++ "'<' not supported between instances of 'str' and 'int'") ]
  /\ file_modified (self_ w') m = false.
Proof.
  intros Hold Hvold Hread Hval Hstat Hget Htext w'.
  assert (Hcalc : _calculate_changes (set_last_modified m (self_ w))
                    (now_changes env) df
                  = Raise (Exception "TypeError"
                             "'<' not supported between instances of 'str' and 'int'")).
  { unfold _calculate_changes. cbn [last_data set_last_modified]. rewrite Hold.
    rewrite (validate_has_column df Hval inventory_level_expected).
    rewrite (validate_has_column old Hvold inventory_level_expected).
    cbn [andb]. unfold inventory_changes. rewrite Hget.
    unfold series_lt. unfold is_text in Htext. now rewrite Htext. }
  unfold w', after.
  rewrite (handle_changes_error env w Hread Hval Hstat Hcalc).
  cbn [fst snd self_]. rewrite new_events_app.
  unfold get_latest_data, file_modified.
  cbn [last_data last_modified set_last_modified str_exn].
  repeat split; auto. apply Z.ltb_irrefl.
Qed.

(** X7: when the file parses and passes validation but its modification
    time can then not be read (the file was removed in between, say), the
    attempt is abandoned before anything is assigned: the method returns
    normally, the manager is unchanged, no subscriber is called, the error
    is logged, and a later poll sees the file as it did before. *)
Theorem X7_unreadable_mtime_abandons_attempt (env : Env) (w : World)
    (df : DataFrame) (e : exn) (current_modified : Z) :
  read_csv env = Ok df ->
  _validate_columns df = true ->
  stat_mtime env = Raise e ->
  let w' := after (_handle_file_change env) w in
  fst (run (_handle_file_change env) w) = Ok tt
  /\ self_ w' = self_ w
  /\ new_events w w'
     = [ Logged "ERROR" ("Error processing CSV update: " ++ str_exn e) ]
  /\ file_modified (self_ w') current_modified
     = file_modified (self_ w) current_modified.
Proof.
  intros Hread Hval Hstat w'. unfold w', after.
  rewrite (handle_stat_error env w Hread Hval Hstat).
  cbn [fst snd self_]. rewrite new_events_app. repeat split.
Qed.

(** X8: a commit is not undone by consumers that fail within class
    Exception. When the table passes validation, the modification time is
    read and the change summary is computed, then, whatever the subscribers
    and the sinks do short of raising outside class Exception (each may
    return or raise within it), the method returns normally, the table is
    the snapshot and the modification time is recorded; the table is
    installed before the first subscriber is called, every subscriber is
    called, and the last thing the method does is log the row count. *)
Theorem X8_commit_survives_failing_consumers (env : Env) (w : World)
    (df : DataFrame) (m : Z) (changes : pyval) :
  calls_within_Exception (self_ w) ->
  read_csv env = Ok df ->
  _validate_columns df = true ->
  stat_mtime env = Ok m ->
  _calculate_changes (self_ w) (now_changes env) df = Ok changes ->
  let w' := after (Exits._handle_file_change env) w in
  fst (run (Exits._handle_file_change env) w) = Ok tt
  /\ get_latest_data (self_ w') = Some df
  /\ last_modified (self_ w') = Some m
  /\ (exists rest,
        new_events w w' = Stored df :: rest
        /\ calls_of rest = map (fun cb => (cb_id cb, df, changes)) (subscribers (self_ w))
        /\ stored_in rest = [])
  /\ last (new_events w w') (Stored df)
     = Logged "INFO" ("Processed CSV update with " ++ str_nat (len df) ++ " rows").
Proof.
  intros Hwithin Hread Hval Hstat Hcalc w'.
  assert (Henv : env_within_Exception env).
  { unfold env_within_Exception. rewrite Hread, Hstat. split; exact I. }
  destruct (handle_commit env w Hread Hval Hstat Hcalc) as (evs & Hrun & Hcalls & Hst).
  unfold w', after. rewrite handle_within_Exception by assumption.
  rewrite Hrun. cbn [fst snd self_].
  rewrite new_events_app.
  repeat split.
  - eexists. split; [reflexivity |]. split.
    + rewrite !calls_of_app, calls_of_dispatch, Hcalls. cbn [calls_of].
      now rewrite !app_nil_r.
    + rewrite !stored_in_app, stored_dispatch, Hst. reflexivity.
  - rewrite !app_assoc. apply last_last.
Qed.

(** A broadcast with no sink configured pushes nothing. *)
Lemma broadcast_without_sinks (now : string) (data : DataFrame)
    (changes : pyval) (w : World) :
  redis_client (self_ w) = None ->
  kafka_producer (self_ w) = None ->
  self_ (after (_broadcast_data now data changes) w) = self_ w
  /\ pushes_in (trace (after (_broadcast_data now data changes) w))
     = pushes_in (trace w).
Proof.
  intros Hredis Hkafka.
  unfold after, run, _broadcast_data, logger_error, try_except, bind, get_self,
    lift, ret, emit.
  rewrite Hredis, Hkafka.
  destruct (socketio_server (self_ w)); [destruct (to_json data) |];
    cbn -[String.append]; split; try reflexivity.
  rewrite pushes_in_app. cbn [pushes_in]. apply app_nil_r.
Qed.

End PipelineEdges.

(** ** The sinks *)

Lemma pushes_dispatch (subs : list Callback) (data : DataFrame)
    (changes : pyval) (before : list Event) :
  pushes_in (dispatch_events subs data changes before) = [].
Proof.
  revert before.
  induction subs as [| c rest IH]; intros before; auto.
  cbn [dispatch_events]. rewrite pushes_in_app, IH.
  destruct (cb_body c before data changes); reflexivity.
Qed.

Section Sinks.
Context {pandas : Pandas}.

(** A run of the file-change pipeline without sinks pushes nothing. *)
Lemma handle_pushes (env : Env) (w : World) :
  redis_client (self_ w) = None ->
  kafka_producer (self_ w) = None ->
  pushes_in (trace (after (_handle_file_change env) w)) = pushes_in (trace w).
Proof.
  intros Hredis Hkafka. unfold after.
  destruct (read_csv env) as [df | e] eqn:Hread.
  2: { rewrite (handle_parse_error env w Hread). cbn [snd trace].
       rewrite pushes_in_app. apply app_nil_r. }
  destruct (_validate_columns df) eqn:Hval.
  2: { rewrite (handle_schema_mismatch env w Hread Hval). cbn [snd trace].
       rewrite pushes_in_app. apply app_nil_r. }
  destruct (stat_mtime env) as [m | e] eqn:Hstat.
  2: { rewrite (handle_stat_error env w Hread Hval Hstat). cbn [snd trace].
       rewrite pushes_in_app. apply app_nil_r. }
  destruct (_calculate_changes (set_last_modified m (self_ w)) (now_changes env) df)
    as [changes | e] eqn:Hcalc.
  2: { rewrite (handle_changes_error env w Hread Hval Hstat Hcalc). cbn [snd trace].
       rewrite pushes_in_app. apply app_nil_r. }
  unfold run, _handle_file_change, try_except.
  unfold bind at 1, lift at 1. rewrite Hread, Hval. cbn [negb].
  unfold bind at 1, lift at 1. rewrite Hstat.
  unfold bind at 1, modify_self at 1.
  unfold bind at 1, get_self at 1. cbn [self_ trace].
  unfold bind at 1, lift at 1. rewrite Hcalc.
  unfold bind at 1, modify_self at 1. cbn [self_ trace].
  unfold bind at 1, emit at 1. cbn [self_ trace].
  unfold bind at 1.
  change (_notify_subscribers df changes ?w0)
    with (run (_notify_subscribers df changes) w0).
  rewrite notify_run. cbn [self_ trace subscribers set_last_data set_last_modified].
  unfold bind at 1.
  match goal with
  | |- context [_broadcast_data ?n ?d ?c ?w0] =>
      destruct (broadcast_run n d c w0) as (evs & Hb & _ & _);
      destruct (broadcast_without_sinks n d c w0 Hredis Hkafka) as [_ Hp];
      unfold after in Hp; rewrite Hb in Hp; unfold run in Hb; rewrite Hb
  end.
  unfold logger_info, emit. cbn [snd self_ trace] in *.
  rewrite pushes_in_app. cbn [pushes_in]. rewrite app_nil_r, Hp.
  rewrite !pushes_in_app, pushes_dispatch. cbn [pushes_in].
  now rewrite !app_nil_r.
Qed.

(** A step keeps a manager without sinks without sinks, and pushes
    nothing. *)
Lemma step_pushes (w w' : World) :
  step w w' ->
  redis_client (self_ w) = None ->
  kafka_producer (self_ w) = None ->
  redis_client (self_ w') = None
  /\ kafka_producer (self_ w') = None
  /\ pushes_in (trace w') = pushes_in (trace w).
Proof.
  assert (Hself : forall env w0,
             redis_client (self_ (snd (run (_handle_file_change env) w0)))
             = redis_client (self_ w0)
             /\ kafka_producer (self_ (snd (run (_handle_file_change env) w0)))
                = kafka_producer (self_ w0)).
  { intros env w0.
    destruct (handle_outcomes env w0)
      as [_ [H | [(df & m & _ & _ & _ & H) | (df & m & _ & _ & _ & H)]]];
      rewrite H; split; reflexivity. }
  intros Hstep Hredis Hkafka. destruct Hstep.
  - cbn -[String.append]. rewrite pushes_in_app. cbn [pushes_in].
    rewrite app_nil_r. auto.
  - unfold run, unsubscribe, bind, get_self.
    destruct (registered cb (subscribers (self_ w))); cbn -[String.append].
    + rewrite pushes_in_app. cbn [pushes_in]. rewrite app_nil_r. auto.
    + auto.
  - destruct (Hself env w) as [Hr Hk]. rewrite Hr, Hk.
    pose proof (handle_pushes env w Hredis Hkafka) as Hp. unfold after in Hp.
    auto.
  - rewrite loop_body_run.
    destruct poll_mtime as [m | e].
    + destruct (file_modified (self_ w) m); cbn [snd self_ trace].
      * destruct (Hself env w) as [Hr Hk]. rewrite Hr, Hk.
        pose proof (handle_pushes env w Hredis Hkafka) as Hp. unfold after in Hp.
        rewrite pushes_in_app, Hp. cbn [pushes_in]. rewrite app_nil_r. auto.
      * rewrite pushes_in_app. cbn [pushes_in]. rewrite app_nil_r. auto.
    + cbn [snd self_ trace]. rewrite pushes_in_app. cbn [pushes_in].
      rewrite app_nil_r. auto.
  - unfold run, start_monitoring. destruct exists_; cbn -[String.append];
      rewrite pushes_in_app; cbn [pushes_in]; rewrite app_nil_r; auto.
  - destruct observer as [[[] | e] |]; cbn -[String.append];
      rewrite ?pushes_in_app; cbn [pushes_in]; rewrite ?app_nil_r; auto.
Qed.

(** X9: no method of the class assigns [redis_client] or
    [kafka_producer]: in every state the manager reaches they are [None],
    and nothing has ever been pushed to Redis or to Kafka. *)
Theorem X9_redis_and_kafka_are_never_reached (w : World) :
  reachable w ->
  redis_client (self_ w) = None
  /\ kafka_producer (self_ w) = None
  /\ pushes_in (trace w) = [].
Proof.
  intros Hreach.
  induction Hreach as [path interval | w w' _ IH Hstep].
  - repeat split.
  - destruct IH as (Hr & Hk & Hp).
    destruct (step_pushes Hstep Hr Hk) as (Hr' & Hk' & Hp').
    rewrite Hp', Hp. auto.
Qed.

(** X10: the sinks are not isolated from one another. With a Redis client
    installed whose [setex] raises, [_broadcast_data] logs the error and
    returns normally, and nothing is sent to Kafka, whether or not a producer
    is installed. *)
Theorem X10_failed_redis_push_skips_kafka (now : string) (data : DataFrame)
    (changes : pyval) (w : World) (client : RedisClient) (payload : string)
    (e : exn) :
  redis_client (self_ w) = Some client ->
  to_json data = Ok payload ->
  setex client "latest_inventory_data" 3600 payload = Raise e ->
  run (_broadcast_data now data changes) w
  = (Ok tt,
     {| self_ := self_ w;
        trace := trace w
                 ++ [ RedisSetex "latest_inventory_data" 3600 payload;
                      Logged "ERROR" ("Error broadcasting data: " ++ str_exn e) ] |}).
Proof.
  intros Hredis Hjson Hsetex.
  unfold run, _broadcast_data, logger_error, try_except, bind, get_self,
    lift, ret, emit.
  rewrite Hredis, Hjson.
  destruct (socketio_server (self_ w)); cbn -[String.append];
    rewrite Hsetex; cbn -[String.append]; now rewrite <- app_assoc.
Qed.


End Sinks.

(** ** Further properties of the streaming loop and of the HTTP accessor *)

Section LoopEdges.
Context {pandas : Pandas}.

(** X12: along the iterations of the streaming loop the recorded
    modification time never goes back, provided the file's modification
    time does not go back between the poll and the reading made while the
    file is processed. *)
Theorem X12_recorded_marker_never_goes_back (poll_mtime : result Z)
    (env : Env) (w : World) (recorded : Z) :
  (forall m m', poll_mtime = Ok m -> stat_mtime env = Ok m' -> m <= m') ->
  last_modified (self_ w) = Some recorded ->
  exists recorded',
    last_modified (self_ (after (streaming_loop_body poll_mtime env) w))
    = Some recorded'
    /\ recorded <= recorded'.
Proof.
  intros Hmono Hrec. unfold after. rewrite loop_body_run.
  destruct poll_mtime as [m | e].
  2: { exists recorded. cbn [snd self_]. split; [exact Hrec | lia]. }
  destruct (file_modified (self_ w) m) eqn:Hsig.
  2: { exists recorded. cbn [snd self_]. split; [exact Hrec | lia]. }
  unfold file_modified in Hsig. rewrite Hrec in Hsig. apply Z.ltb_lt in Hsig.
  cbn [snd self_].
  destruct (handle_outcomes env w)
    as [_ [H | [(df & m' & _ & _ & Hst & H) | (df & m' & _ & _ & Hst & H)]]];
    rewrite H.
  - exists recorded. split; [exact Hrec | lia].
  - exists m'. split; [reflexivity |].
    specialize (Hmono m m' eq_refl Hst). lia.
  - exists m'. split; [reflexivity |].
    specialize (Hmono m m' eq_refl Hst). lia.
Qed.

(** An iteration of the loop leaves [is_running] as it is. *)
Lemma loop_body_is_running (poll_mtime : result Z) (env : Env) (w : World) :
  is_running (self_ (snd (run (streaming_loop_body poll_mtime env) w)))
  = is_running (self_ w).
Proof.
  rewrite loop_body_run.
  destruct poll_mtime as [m | e]; [| reflexivity].
  destruct (file_modified (self_ w) m); [| reflexivity].
  cbn [snd self_].
  destruct (handle_outcomes env w)
    as [_ [H | [(df & m' & _ & _ & _ & H) | (df & m' & _ & _ & _ & H)]]];
    rewrite H; reflexivity.
Qed.

(** X13: no failure within class Exception ends the streaming loop. Where
    what the file system answers, the subscribers, the sinks and the library
    raise nothing outside class Exception, the loop makes, while
    [is_running] holds, one iteration for each answer of the environment,
    whatever happened in the iterations before (an unreadable modification
    time, a parse error, a raising subscriber), and no exception leaves it;
    when [is_running] does not hold it makes no iteration and leaves the
    world as it is. The loop does not change [is_running]. *)
Theorem X13_streaming_loop_survives_failures (answers : list (result Z * Env))
    (w : World) :
  answers_within_Exception answers ->
  calls_within_Exception (self_ w) ->
  exists signalled,
    fst (run (Exits.streaming_loop answers) w) = Ok signalled
    /\ List.length signalled
       = (if is_running (self_ w) then List.length answers else 0%nat)
    /\ is_running (self_ (after (Exits.streaming_loop answers) w))
       = is_running (self_ w)
    /\ (if is_running (self_ w) then True
        else after (Exits.streaming_loop answers) w = w).
Proof.
  intros Hans Hwithin. unfold after.
  rewrite loop_within_Exception by assumption.
  clear Hans Hwithin. revert w.
  induction answers as [| [poll_mtime env] rest IH]; intros w.
  - exists []. cbn. destruct (is_running (self_ w)); auto.
  - destruct (is_running (self_ w)) eqn:Hrun.
    + pose proof (loop_body_run poll_mtime env w) as Hbody.
      pose proof (loop_body_is_running poll_mtime env w) as Hkeep.
      unfold run in Hbody, Hkeep.
      destruct (streaming_loop_body poll_mtime env w) as [r w1] eqn:Hstep.
      assert (Hok : exists b, r = Ok b).
      { destruct poll_mtime as [m | e].
        - destruct (file_modified (self_ w) m); injection Hbody as -> _; eauto.
        - injection Hbody as -> _. eauto. }
      destruct Hok as [b ->]. cbn [snd] in Hkeep.
      destruct (IH w1) as (bs & Hbs & Hlen & Hkeep' & _).
      unfold run in Hbs, Hkeep'.
      destruct (streaming_loop rest w1) as [r2 w2] eqn:Hrest.
      cbn [fst snd] in Hbs, Hkeep'. subst r2.
      assert (Heq : run (streaming_loop ((poll_mtime, env) :: rest)) w
                    = (Ok (b :: bs), w2)).
      { unfold run. cbn [streaming_loop]. unfold bind, get_self.
        rewrite Hrun, Hstep, Hrest. reflexivity. }
      exists (b :: bs). rewrite Heq. cbn [fst snd List.length].
      rewrite Hkeep, Hrun in Hlen. rewrite Hlen, Hkeep', Hkeep.
      repeat split; auto.
    + exists []. unfold run. cbn [streaming_loop]. unfold bind, get_self.
      rewrite Hrun. cbn. rewrite Hrun. auto.
Qed.


End LoopEdges.

(** ** The inventory loop of the simulator *)

Lemma update_inventory_level_returns (current_inventory : Z) (d : InventoryDraw) :
  exists level, update_inventory_level current_inventory d = Ok level.
Proof.
  unfold update_inventory_level, randint.
  destruct (selected d); [| eauto].
  destruct (current_inventory <? 15) eqn:Hlow.
  - cbn. eauto.
  - apply Z.ltb_ge in Hlow.
    destruct (0 <? current_inventory); [| eauto].
    destruct (Z.min 10 current_inventory <=? 1) eqn:Hrange; [| eauto].
    apply Z.leb_le in Hrange. lia.
Qed.

(** X15: the inventory loop of the simulator never raises on an integer
    column, whatever numbers are drawn, and returns one level per row: the
    call [randint(1, min(10, current_inventory))], which raises for a level
    of 1, is only reached for levels of 15 and more. *)
Theorem X15_inventory_loop_never_raises (levels : list Z)
    (draws : nat -> InventoryDraw) (i : nat) :
  exists levels',
    update_inventory_levels levels draws i = Ok levels'
    /\ List.length levels' = List.length levels.
Proof.
  revert i.
  induction levels as [| c rest IH]; intros i.
  - exists []. split; reflexivity.
  - cbn [update_inventory_levels].
    destruct (update_inventory_level_returns c (draws i)) as [level ->].
    destruct (IH (S i)) as (levels' & -> & Hlen).
    exists (level :: levels'). cbn [List.length]. now rewrite Hlen.
Qed.

Lemma update_inventory_level_bounds (current_inventory : Z) (d : InventoryDraw) :
  0 <= current_inventory ->
  draw_in_range current_inventory d ->
  exists level,
    update_inventory_level current_inventory d = Ok level
    /\ (level = 0 -> current_inventory = 0)
    /\ 0 <= level
    /\ (current_inventory <= 200 -> level <= 200).
Proof.
  unfold update_inventory_level, randint, draw_in_range, in_range.
  intros Hpos Hdraw.
  destruct (selected d).
  2: { exists current_inventory. repeat split; auto. }
  destruct (current_inventory <? 15) eqn:Hlow.
  - cbn. eexists. split; [reflexivity |]. lia.
  - apply Z.ltb_ge in Hlow.
    destruct (0 <? current_inventory) eqn:Hgt; [| apply Z.ltb_ge in Hgt; lia].
    destruct (Z.min 10 current_inventory <=? 1) eqn:Hrange;
      [apply Z.leb_le in Hrange; lia |].
    eexists. split; [reflexivity |]. lia.
Qed.

(** X16: on a column of non-negative integer levels, with every draw
    within the range asked for, the inventory loop of the simulator yields
    non-negative levels, keeps levels of at most 200 at most 200, and brings
    no row to 0 that was not at 0 already: the number of rows the manager
    counts as out of stock does not grow from one simulated version of the
    file to the next. *)
Theorem X16_simulator_creates_no_out_of_stock_row (levels : list Z)
    (draws : nat -> InventoryDraw) (i : nat) :
  Forall (fun c => 0 <= c) levels ->
  (forall k c, nth_error levels k = Some c -> draw_in_range c (draws (i + k)%nat)) ->
  exists levels',
    update_inventory_levels levels draws i = Ok levels'
    /\ Forall2 (fun c c' => (c' = 0 -> c = 0) /\ 0 <= c' /\ (c <= 200 -> c' <= 200))
               levels levels'
    /\ (len_masked (series_eq (Int64 levels') 0)
        <= len_masked (series_eq (Int64 levels) 0))%nat.
Proof.
  revert i.
  induction levels as [| c rest IH]; intros i Hpos Hdraws.
  - exists []. repeat split; [constructor | cbn; lia].
  - inversion Hpos as [| ? ? Hc Hrest]; subst.
    cbn [update_inventory_levels].
    destruct (@update_inventory_level_bounds c (draws i) Hc)
      as (level & -> & Hzero & Hlevel & Hcap).
    { specialize (Hdraws 0%nat c eq_refl). now rewrite Nat.add_0_r in Hdraws. }
    destruct (IH (S i) Hrest) as (levels' & -> & Hall & Hcount).
    { intros k c0 Hk. specialize (Hdraws (S k) c0 Hk).
      now rewrite Nat.add_succ_r in Hdraws. }
    exists (level :: levels'). split; [reflexivity |].
    split; [constructor; auto |].
    cbn [series_eq] in *. unfold len_masked in *. cbn [map filter].
    destruct (level =? 0) eqn:Hl.
    + apply Z.eqb_eq in Hl. rewrite (Hzero Hl). cbn [Z.eqb filter List.length]. lia.
    + destruct (c =? 0); cbn [List.length]; lia.
Qed.

(** ** What subscribers are handed, in every reachable state *)

Section Handed.
Context {pandas : Pandas}.


(** X18: in every reachable state that holds a snapshot, the summary
    computed for a table that passes validation is of kind update and, if it
    can be computed at all, carries both inventory indicators, the
    out-of-stock count being at most the low-stock count: the branch that
    leaves the indicators out is never taken. *)
Theorem X18_update_summary_carries_indicators (w : World) (old df : DataFrame)
    (now : string) (changes : pyval) :
  reachable w ->
  last_data (self_ w) = Some old ->
  _validate_columns df = true ->
  _calculate_changes (self_ w) now df = Ok changes ->
  dict_get "type" changes = Some (PyStr "update")
  /\ dict_get "total_rows" changes = Some (PyInt (Z.of_nat (len df)))
  /\ exists low_stock out_of_stock,
       indicator "low_stock" changes = Some low_stock
       /\ indicator "out_of_stock" changes = Some out_of_stock
       /\ 0 <= out_of_stock <= low_stock.
Proof.
  intros Hreach Hold Hval Hcalc.
  pose proof (reachable_snapshot_valid Hreach) as Hvold. rewrite Hold in Hvold.
  unfold _calculate_changes in Hcalc. rewrite Hold in Hcalc.
  rewrite (validate_has_column df Hval inventory_level_expected) in Hcalc.
  rewrite (validate_has_column old Hvold inventory_level_expected) in Hcalc.
  cbn [andb] in Hcalc. unfold inventory_changes in Hcalc.
  destruct (getitem df "Inventory Level") as [s | e]; [| discriminate].
  destruct (series_lt s 10) as [low | e] eqn:Hlt; [| discriminate].
  injection Hcalc as <-.
  pose proof (series_zero_within_low s Hlt) as [H1 H2].
  split; [reflexivity |]. split; [reflexivity |].
  exists (Z.of_nat (len_masked low)), (Z.of_nat (len_masked (series_eq s 0))).
  split; [reflexivity |]. split; [reflexivity |]. lia.
Qed.

(** The subscriber calls of one run of the file-change pipeline are all
    made with a table that passed validation. *)
Lemma handle_calls_valid (env : Env) (w : World) :
  exists evs,
    trace (snd (run (_handle_file_change env) w)) = (trace w ++ evs)%list
    /\ Forall (fun c => _validate_columns (snd (fst c)) = true) (calls_of evs).
Proof.
  destruct (read_csv env) as [df | e] eqn:Hread.
  2: { rewrite (handle_parse_error env w Hread). cbn [snd trace].
       eexists. split; [reflexivity | constructor]. }
  destruct (_validate_columns df) eqn:Hval.
  2: { rewrite (handle_schema_mismatch env w Hread Hval). cbn [snd trace].
       eexists. split; [reflexivity | constructor]. }
  destruct (stat_mtime env) as [m | e] eqn:Hstat.
  2: { rewrite (handle_stat_error env w Hread Hval Hstat). cbn [snd trace].
       eexists. split; [reflexivity | constructor]. }
  destruct (_calculate_changes (set_last_modified m (self_ w)) (now_changes env) df)
    as [changes | e] eqn:Hcalc.
  2: { rewrite (handle_changes_error env w Hread Hval Hstat Hcalc). cbn [snd trace].
       eexists. split; [reflexivity | constructor]. }
  destruct (handle_commit env w Hread Hval Hstat Hcalc) as (evs & Hrun & Hcalls & _).
  rewrite Hrun. cbn [snd trace].
  eexists. split; [reflexivity |].
  rewrite !calls_of_app, calls_of_dispatch, Hcalls. cbn [calls_of].
  rewrite !app_nil_r. cbn [app].
  apply Forall_forall. intros c Hc. apply in_map_iff in Hc.
  destruct Hc as (cb & <- & _). exact Hval.
Qed.

Lemma step_calls_valid (w w' : World) :
  step w w' ->
  exists evs,
    trace w' = (trace w ++ evs)%list
    /\ Forall (fun c => _validate_columns (snd (fst c)) = true) (calls_of evs).
Proof.
  intros Hstep. destruct Hstep.
  - eexists. split; [reflexivity | constructor].
  - unfold run, unsubscribe, bind, get_self.
    destruct (registered cb (subscribers (self_ w))).
    + eexists. split; [reflexivity | constructor].
    + exists []. cbn. rewrite app_nil_r. split; [reflexivity | constructor].
  - apply handle_calls_valid.
  - rewrite loop_body_run.
    destruct poll_mtime as [m | e].
    + destruct (file_modified (self_ w) m); cbn [snd self_ trace].
      * destruct (handle_calls_valid env w) as (evs & Htr & Hall).
        exists (evs ++ [Slept 1])%list. rewrite Htr, <- app_assoc.
        split; [reflexivity |]. rewrite calls_of_app. cbn [calls_of].
        now rewrite app_nil_r.
      * eexists. split; [reflexivity | constructor].
    + eexists. split; [reflexivity | constructor].
  - unfold run, start_monitoring. destruct exists_; cbn -[String.append].
    + eexists. split; [reflexivity | constructor].
    + eexists. split; [reflexivity | constructor].
  - destruct observer as [[[] | e] |].
    + eexists. split; [reflexivity | constructor].
    + exists []. cbn. rewrite app_nil_r. split; [reflexivity | constructor].
    + eexists. split; [reflexivity | constructor].
Qed.

(** X19: in every reachable state, every call ever made to a subscriber
    was made with a table that passed column validation: a table that fails
    it, or a file that fails to parse, is never shown to a subscriber. *)
Theorem X19_subscribers_only_see_validated_tables (w : World) :
  reachable w ->
  Forall (fun c => _validate_columns (snd (fst c)) = true) (calls_of (trace w)).
Proof.
  intros Hreach.
  induction Hreach as [path interval | w w' _ IH Hstep].
  - constructor.
  - destruct (step_calls_valid Hstep) as (evs & Htr & Hall).
    rewrite Htr, calls_of_app. apply Forall_app. auto.
Qed.

End Handed.

(** ** The further properties at sample data *)

(** X3 at a table with its columns reversed and one more column. *)
Lemma X3_witness_reordered_table :
  _validate_columns
    {| index_len := 1;
       frame := ("Supplier", Int64 [9]) :: rev (frame (inventory_table [1])) |}
  = true.
Proof.
  apply (@X3_validation_accepts_supersets (inventory_table [1])).
  - cbn. intros c H. tauto.
  - reflexivity.
Defined.

(** X4 at a table that lost its Price column. *)
Lemma X4_witness_fourteen_columns :
  _validate_columns (drop_column "Price" (inventory_table [4])) = false.
Proof.
  apply X4_fewer_than_fifteen_columns_rejected. cbn. lia.
Defined.

(** X5 at the table with levels 0, 5, 50, 0, 20. *)
Lemma X5_witness_five_rows :
  exists (s : Series) (low_stock out_of_stock : Z),
    getitem (inventory_table [0; 5; 50; 0; 20]) "Inventory Level" = Ok s
    /\ PyDict [ ("low_stock", PyInt 3); ("out_of_stock", PyInt 2) ]
       = PyDict [ ("low_stock", PyInt low_stock);
                  ("out_of_stock", PyInt out_of_stock) ]
    /\ 0 <= out_of_stock <= low_stock
    /\ low_stock <= Z.of_nat (series_len s).
Proof.
  apply (@X5_out_of_stock_within_low_stock (inventory_table [0; 5; 50; 0; 20])).
  reflexivity.
Defined.

(** X6 at a file whose inventory cell reads "abc", after a first commit. *)
Lemma X6_witness_text_inventory :
  let env := file_with (text_inventory_table [ "abc" ]) 200 in
  let w := after (_handle_file_change (pandas := stub_pandas)
                    (file_with (inventory_table [4]) 100))
                 (after (subscribe probe) fresh) in
  let w' := after (_handle_file_change (pandas := stub_pandas) env) w in
  fst (run (_handle_file_change (pandas := stub_pandas) env) w) = Ok tt
  /\ get_latest_data (self_ w') = Some (inventory_table [4])
  /\ last_modified (self_ w') = Some 200
  /\ new_events w w'
     = [ Logged "ERROR"
           ("Error processing CSV update: "
            ++ "'<' not supported between instances of 'str' and 'int'") ]
  /\ file_modified (self_ w') 200 = false.
Proof.
  intros env w.
  exact (@X6_text_inventory_update_moves_marker_only stub_pandas env w
           (inventory_table [4]) (text_inventory_table [ "abc" ]) 200
           [ Some "abc" ] eq_refl eq_refl eq_refl eq_refl eq_refl eq_refl eq_refl).
Defined.

(** X7 at a file that disappears after it was read. *)
Lemma X7_witness_file_removed :
  let env := {| read_csv := Ok (inventory_table [4]);
                stat_mtime := Raise (Exception "FileNotFoundError" "No such file");
                now_changes := "2024-05-01T10:00:00";
                now_broadcast := "2024-05-01T10:00:01" |} in
  let w := after (subscribe probe) fresh in
  let w' := after (_handle_file_change (pandas := stub_pandas) env) w in
  fst (run (_handle_file_change (pandas := stub_pandas) env) w) = Ok tt
  /\ self_ w' = self_ w
  /\ new_events w w'
     = [ Logged "ERROR" ("Error processing CSV update: " ++ "No such file") ]
  /\ file_modified (self_ w') 100 = file_modified (self_ w) 100.
Proof.
  intros env w.
  exact (@X7_unreadable_mtime_abandons_attempt stub_pandas env w
           (inventory_table [4]) (Exception "FileNotFoundError" "No such file") 100
           eq_refl eq_refl eq_refl).
Defined.

(** X8 at a first commit with a subscriber that raises a RuntimeError. *)
Lemma X8_witness_raising_subscriber :
  let env := file_with (inventory_table [4]) 100 in
  let w := after (subscribe failing) fresh in
  let w' := after (Exits._handle_file_change (pandas := stub_pandas) env) w in
  let changes := PyDict [ ("type", PyStr "initial_load"); ("rows", PyInt 1) ] in
  fst (run (Exits._handle_file_change (pandas := stub_pandas) env) w) = Ok tt
  /\ get_latest_data (self_ w') = Some (inventory_table [4])
  /\ last_modified (self_ w') = Some 100
  /\ (exists rest,
        new_events w w' = Stored (inventory_table [4]) :: rest
        /\ calls_of rest
           = map (fun cb => (cb_id cb, inventory_table [4], changes))
                 (subscribers (self_ w))
        /\ stored_in rest = [])
  /\ last (new_events w w') (Stored (inventory_table [4]))
     = Logged "INFO" ("Processed CSV update with "
                      ++ str_nat (len (inventory_table [4])) ++ " rows").
Proof.
  intros env w.
  assert (Hwithin : calls_within_Exception (pandas := stub_pandas) (self_ w)).
  { split; [| split].
    - intros c tr d ch Hin. cbn in Hin. destruct Hin as [<- | []]. reflexivity.
    - split; intros;
        match goal with H : _ = Some _ |- _ => vm_compute in H; discriminate end.
    - repeat split. }
  exact (@X8_commit_survives_failing_consumers stub_pandas env w
           (inventory_table [4]) 100
           (PyDict [ ("type", PyStr "initial_load"); ("rows", PyInt 1) ])
           Hwithin eq_refl eq_refl eq_refl eq_refl).
Defined.

(** X9 at the state reached by a subscription, a commit and a poll. *)
Lemma X9_witness_after_commit_and_poll :
  let w := after (streaming_loop_body (pandas := stub_pandas) (Ok 300)
                    (file_with (inventory_table [0; 5]) 300))
                 (after (_handle_file_change (pandas := stub_pandas)
                           (file_with (inventory_table [4]) 100))
                        (after (subscribe probe) fresh)) in
  redis_client (self_ w) = None
  /\ kafka_producer (self_ w) = None
  /\ pushes_in (trace w) = [].
Proof.
  intros w.
  apply (@X9_redis_and_kafka_are_never_reached stub_pandas w).
  repeat first
    [ apply (reach_init (pandas := stub_pandas))
    | eapply (reach_step (pandas := stub_pandas));
      [| first [ apply (step_on_modified (pandas := stub_pandas))
               | apply (step_loop (pandas := stub_pandas))
               | apply (step_subscribe (pandas := stub_pandas)) ] ] ].
Defined.

(** X10 at a manager given a Redis client that refuses the connection and a
    Kafka producer that works. *)
Lemma X10_witness_redis_refuses :
  let refusing := mkRedis (fun _ _ _ => Raise (Exception "ConnectionError" "refused")) in
  let working := mkKafka (fun _ _ => Ok tt) in
  let self :=
    mkManager "retail_store_inventory.csv" 300 None None [] true false
      (Some refusing) (Some working) in
  let w := {| self_ := self; trace := [] |} in
  run (_broadcast_data (pandas := stub_pandas) "2024-05-01T10:00:01"
         (inventory_table [4]) PyNone) w
  = (Ok tt,
     {| self_ := self;
        trace := [ RedisSetex "latest_inventory_data" 3600 "[]";
                   Logged "ERROR" ("Error broadcasting data: " ++ "refused") ] |}).
Proof.
  intros refusing working self w.
  exact (@X10_failed_redis_push_skips_kafka stub_pandas "2024-05-01T10:00:01"
           (inventory_table [4]) PyNone w refusing "[]"
           (Exception "ConnectionError" "refused") eq_refl eq_refl eq_refl).
Defined.


(** X12 at a poll that reads marker 7 while marker 5 is recorded, the file
    carrying marker 9 by the time it is processed. *)
Lemma X12_witness_marker_moves_forward :
  let w := after (_handle_file_change (pandas := stub_pandas)
                    (file_with (inventory_table [4]) 5)) fresh in
  exists recorded',
    last_modified
      (self_ (after (streaming_loop_body (pandas := stub_pandas) (Ok 7)
                       (file_with (inventory_table [4; 8]) 9)) w))
    = Some recorded'
    /\ 5 <= recorded'.
Proof.
  intros w.
  apply (@X12_recorded_marker_never_goes_back stub_pandas (Ok 7)
           (file_with (inventory_table [4; 8]) 9) w 5).
  - intros m m' Hm Hm'. injection Hm as <-. injection Hm' as <-. lia.
  - reflexivity.
Defined.

(** X13 at a running manager with a raising subscriber, over three
    iterations: the modification time cannot be read, then the file lacks a
    column, then the file is valid. *)
Lemma X13_witness_three_iterations :
  let w := after (start_monitoring true true) (after (subscribe failing) fresh) in
  let answers :=
    [ (Raise (Exception "FileNotFoundError" "No such file"),
       file_with (inventory_table [4]) 5);
      (Ok 5, file_with (drop_column "Price" (inventory_table [4])) 5);
      (Ok 9, file_with (inventory_table [4]) 9) ] in
  exists signalled,
    fst (run (Exits.streaming_loop (pandas := stub_pandas) answers) w) = Ok signalled
    /\ List.length signalled = 3%nat
    /\ is_running
         (self_ (after (Exits.streaming_loop (pandas := stub_pandas) answers) w))
       = true.
Proof.
  intros w answers.
  assert (Hwithin : calls_within_Exception (pandas := stub_pandas) (self_ w)).
  { split; [| split].
    - intros c tr d ch Hin. cbn in Hin. destruct Hin as [<- | []]. reflexivity.
    - split; intros;
        match goal with H : _ = Some _ |- _ => vm_compute in H; discriminate end.
    - repeat split. }
  assert (Hans : answers_within_Exception answers).
  { intros p e Hin.
    repeat (destruct Hin as [Hin | Hin];
            [injection Hin as <- <-; repeat split |]).
    destruct Hin. }
  destruct (@X13_streaming_loop_survives_failures stub_pandas answers w Hans Hwithin)
    as (signalled & Hrun & Hlen & Hkeep & _).
  exists signalled.
  split; [exact Hrun | split; [exact Hlen | exact Hkeep]].
Defined.

(** X16 at four rows: an empty shelf restocked, a low one left alone, two
    stocked ones selling. *)
Lemma X16_witness_four_rows :
  let draws := fun k =>
    nth k [ mkDraw true 20; mkDraw false 25; mkDraw true 9; mkDraw true 1 ]
        (mkDraw false 20) in
  exists levels',
    update_inventory_levels [ 0; 3; 15; 40 ] draws 0 = Ok levels'
    /\ Forall2 (fun c c' => (c' = 0 -> c = 0) /\ 0 <= c' /\ (c <= 200 -> c' <= 200))
               [ 0; 3; 15; 40 ] levels'
    /\ (len_masked (series_eq (Int64 levels') 0)
        <= len_masked (series_eq (Int64 [ 0; 3; 15; 40 ]%Z) 0))%nat.
Proof.
  intros draws.
  apply X16_simulator_creates_no_out_of_stock_row.
  - repeat constructor; lia.
  - intros k c H.
    destruct k as [| [| [| [| k]]]]; cbn in H;
      [ | | | | destruct k; discriminate H ];
      injection H as <-; cbn; unfold in_range; lia.
Defined.

(** X18 at a second commit, of the table with levels 0, 5, 50, 0, 20. *)
Lemma X18_witness_second_commit :
  let w := after (_handle_file_change (pandas := stub_pandas)
                    (file_with (inventory_table [4]) 100)) fresh in
  let changes :=
    PyDict
      [ ("type", PyStr "update");
        ("timestamp", PyStr "2024-05-01T10:00:00");
        ("total_rows", PyInt 5);
        ("changes",
         PyDict
           [ ("inventory_changes",
              PyDict [ ("low_stock", PyInt 3); ("out_of_stock", PyInt 2) ]) ]) ] in
  dict_get "type" changes = Some (PyStr "update")
  /\ dict_get "total_rows" changes
     = Some (PyInt (Z.of_nat (len (inventory_table [0; 5; 50; 0; 20]))))
  /\ exists low_stock out_of_stock,
       indicator "low_stock" changes = Some low_stock
       /\ indicator "out_of_stock" changes = Some out_of_stock
       /\ 0 <= out_of_stock <= low_stock.
Proof.
  intros w changes.
  apply (@X18_update_summary_carries_indicators stub_pandas w
           (inventory_table [4]) (inventory_table [0; 5; 50; 0; 20])
           "2024-05-01T10:00:00" changes).
  - eapply (reach_step (pandas := stub_pandas)).
    + apply (reach_init (pandas := stub_pandas)).
    + apply (step_on_modified (pandas := stub_pandas)).
  - reflexivity.
  - reflexivity.
  - reflexivity.
Defined.

(** X19 at the state reached by a subscription, a commit, a rejected file
    and a second commit. *)
Lemma X19_witness_after_three_files :
  let w := after (_handle_file_change (pandas := stub_pandas)
                    (file_with (inventory_table [0; 5]) 300))
                 (after (_handle_file_change (pandas := stub_pandas)
                           (file_with (drop_column "Price" (inventory_table [4])) 200))
                        (after (_handle_file_change (pandas := stub_pandas)
                                  (file_with (inventory_table [4]) 100))
                               (after (subscribe probe) fresh))) in
  Forall (fun c => _validate_columns (snd (fst c)) = true) (calls_of (trace w)).
Proof.
  intros w.
  apply (@X19_subscribers_only_see_validated_tables stub_pandas w).
  repeat first
    [ apply (reach_init (pandas := stub_pandas))
    | eapply (reach_step (pandas := stub_pandas));
      [| first [ apply (step_on_modified (pandas := stub_pandas))
               | apply (step_subscribe (pandas := stub_pandas)) ] ] ].
Defined.
